(** * Dashboard Farmaceutico: the filtering and aggregation pipeline of app.py

    A shallow embedding of the Streamlit script [app.py].  The script is a
    straight-line program over a pandas DataFrame; every pandas, Python and
    Streamlit operation it calls is given here as a function on lists of
    rows, following the behaviour of the call at the place it is used.

    Conventions of the embedding:
    - a DataFrame is the list of its rows, in index order;
    - the [Fecha] column holds pandas timestamps, integers counting
      nanoseconds since 1970-01-01; a [datetime.date] is the number of the
      day since 1970-01-01;
    - text is [string], the UTF-8 bytes of a Python [str]; the [str]
      methods work on its code points, with the case table of Unicode
      for Basic Latin and the Latin-1 Supplement (text in other scripts
      is not covered);
    - the numeric columns [Ventas] and [Inventario] are exact rationals
      (the rounding of binary64 is not modelled, and no statement
      below rests on regrouping a sum), [Unidades] is an integer whose
      sums wrap around to int64; a mean over no rows is [None] (pandas
      NaN);
    - Streamlit calls that show something ([st.error], [st.warning]) are
      collected as a list of messages next to the value computed. *)

From Stdlib Require Import ZArith QArith Bool List Ascii String Lia.
From Stdlib Require Import Permutation Sorted.
Import ListNotations.

Local Open Scope string_scope.
Local Open Scope list_scope.
Local Open Scope Z_scope.

(** ** Python text *)

(** A [string] holds the UTF-8 bytes of a text; Python's [str] methods
    work on its code points. *)
Module Utf8.

Definition byte (b : ascii) : Z := Z.of_N (N_of_ascii b).
Definition chr (z : Z) : ascii := ascii_of_N (Z.to_N z).

(** The bytes of code point [c], in front of [rest]. *)
Definition encode_char (c : Z) (rest : string) : string :=
  if c <? 128 then String (chr c) rest
  else if c <? 2048 then
    String (chr (192 + c / 64)) (String (chr (128 + c mod 64)) rest)
  else if c <? 65536 then
    String (chr (224 + c / 4096))
      (String (chr (128 + (c / 64) mod 64)) (String (chr (128 + c mod 64)) rest))
  else
    String (chr (240 + c / 262144))
      (String (chr (128 + (c / 4096) mod 64))
         (String (chr (128 + (c / 64) mod 64)) (String (chr (128 + c mod 64)) rest))).

Fixpoint encode (l : list Z) : string :=
  match l with
  | [] => EmptyString
  | c :: l' => encode_char c (encode l')
  end.

(** The code points of a text.  Bytes that are not UTF-8 give U+FFFD;
    [pd.read_csv] raises on them, so no frame holds such a text. *)
Fixpoint decode (s : string) : list Z :=
  match s with
  | EmptyString => []
  | String b0 s1 =>
      if byte b0 <? 128 then byte b0 :: decode s1
      else if byte b0 <? 192 then 65533 :: decode s1
      else if byte b0 <? 224 then
        match s1 with
        | String b1 s2 => (byte b0 - 192) * 64 + byte b1 mod 64 :: decode s2
        | _ => [65533]
        end
      else if byte b0 <? 240 then
        match s1 with
        | String b1 (String b2 s3) =>
            (byte b0 - 224) * 4096 + (byte b1 mod 64) * 64 + byte b2 mod 64 :: decode s3
        | _ => [65533]
        end
      else
        match s1 with
        | String b1 (String b2 (String b3 s4)) =>
            (byte b0 - 240) * 262144 + (byte b1 mod 64) * 4096 + (byte b2 mod 64) * 64
            + byte b3 mod 64 :: decode s4
        | _ => [65533]
        end
  end.

(** The code points of Unicode. *)
Definition valid (c : Z) : bool := (0 <=? c) && (c <? 1114112).

End Utf8.

Module Text.

Definition between (lo hi c : Z) : bool := (lo <=? c) && (c <=? hi).

(** [str.isspace] on one character, which is what [str.strip] removes. *)
Definition is_space (c : Z) : bool :=
  between 9 13 c || between 28 32 c || (c =? 133) || (c =? 160) || (c =? 5760)
  || between 8192 8202 c || (c =? 8232) || (c =? 8233) || (c =? 8239) || (c =? 8287)
  || (c =? 12288).

(** The case table of the Unicode database, for Basic Latin and the
    Latin-1 Supplement, the characters their forms lead to (U+0178,
    U+039C, U+03BC), and U+01F0 with the U+030C of its title form.
    Every other character is taken as uncased and unchanged: text in
    other scripts is not covered. *)
Definition in_table (c : Z) : bool :=
  between 0 255 c || (c =? 376) || (c =? 496) || (c =? 780) || (c =? 924) || (c =? 956).

Definition is_upper (c : Z) : bool :=
  between 65 90 c || between 192 214 c || between 216 222 c || (c =? 376) || (c =? 924).

Definition is_lower (c : Z) : bool :=
  between 97 122 c || (c =? 170) || (c =? 181) || (c =? 186) || between 223 246 c
  || between 248 255 c || (c =? 496) || (c =? 956).

(** A cased character is an upper or lower case one. *)
Definition is_cased (c : Z) : bool := is_upper c || is_lower c.

(** The lower case form of a character. *)
Definition to_lower (c : Z) : list Z :=
  if between 65 90 c || between 192 214 c || between 216 222 c then [c + 32]
  else if c =? 376 then [255]
  else if c =? 924 then [956]
  else [c].

(** The title case form of a character; it is two characters for U+00DF
    and U+01F0. *)
Definition to_title (c : Z) : list Z :=
  if between 97 122 c || between 224 246 c || between 248 254 c then [c - 32]
  else if c =? 181 then [924]
  else if c =? 223 then [83; 115]
  else if c =? 255 then [376]
  else if c =? 496 then [74; 780]
  else if c =? 956 then [924]
  else [c].

(** [str.lower]. *)
Definition lower (s : list Z) : list Z := flat_map to_lower s.

(** [str.title]: a character that follows a cased character is put in
    lower case, any other character in title case. *)
Definition titled (previous_is_cased : bool) (c : Z) : list Z :=
  if previous_is_cased then to_lower c else to_title c.

Fixpoint title_from (previous_is_cased : bool) (s : list Z) : list Z :=
  match s with
  | [] => []
  | c :: s' => titled previous_is_cased c ++ title_from (is_cased c) s'
  end.

Definition title (s : list Z) : list Z := title_from false s.

Fixpoint lstrip (s : list Z) : list Z :=
  match s with
  | [] => []
  | c :: s' => if is_space c then lstrip s' else s
  end.

Fixpoint rstrip (s : list Z) : list Z :=
  match s with
  | [] => []
  | c :: s' =>
      match rstrip s' with
      | [] => if is_space c then [] else [c]
      | r => c :: r
      end
  end.

(** [str.strip] with no argument. *)
Definition strip (s : list Z) : list Z := rstrip (lstrip s).

(** [s.title().strip()]. *)
Definition title_strip (s : list Z) : list Z := strip (title s).

Definition is1 (x : list Z) (v : Z) : bool :=
  match x with
  | [y] => y =? v
  | _ => false
  end.

(** A character of the table whose title and lower forms are one
    character each and make a case pair: the title form and the lower
    form of either is the same pair again.  These are all characters of
    Basic Latin and Latin-1 but U+00B5 and U+00DF. *)
Definition simple (c : Z) : bool :=
  match to_title c, to_lower c with
  | [t], [l] =>
      in_table c && Utf8.valid c && Utf8.valid t && Utf8.valid l
      && in_table t && in_table l
      && is1 (to_title t) t && is1 (to_lower t) l
      && is1 (to_title l) t && is1 (to_lower l) l
      && Bool.eqb (is_cased t) (is_cased c) && Bool.eqb (is_cased l) (is_cased c)
      && Bool.eqb (is_space t) (is_space c) && Bool.eqb (is_space l) (is_space c)
      && (negb (is_space c) || (negb (is_cased c) && (t =? c) && (l =? c)))
  | _, _ => false
  end.

(** The one character of the title form and of the lower form of a
    simple character. *)
Definition title1 (c : Z) : Z := hd c (to_title c).
Definition lower1 (c : Z) : Z := hd c (to_lower c).

Definition simple_text (s : list Z) : bool := forallb simple s.

(** The characters of the table. *)
Definition table : list Z := map Z.of_nat (seq 0 256) ++ [376; 496; 780; 924; 956].

(** What the properties of the normalization need of a simple
    character [c], its title form [t] and its lower form [l]. *)
Definition case_pair (c : Z) : bool :=
  let t := title1 c in
  let l := lower1 c in
  is1 (to_title c) t && is1 (to_lower c) l
  && simple t && simple l
  && (title1 t =? t) && (lower1 t =? l) && (title1 l =? t) && (lower1 l =? l)
  && Bool.eqb (is_cased t) (is_cased c) && Bool.eqb (is_cased l) (is_cased c)
  && Bool.eqb (is_space t) (is_space c) && Bool.eqb (is_space l) (is_space c)
  && (negb (is_space c) || (negb (is_cased c) && (t =? c) && (l =? c)))
  && Utf8.valid c.

(** No whitespace in front. *)
Definition left_clean (s : list Z) : Prop :=
  match s with
  | [] => True
  | c :: _ => is_space c = false
  end.

End Text.

(** ** Lists as pandas Series *)

Section Series.

Context {A : Type}.

(** Insertion sort; [before x y] says that [x] may stand in front of
    [y].  An element is put in front of the first element it may
    stand before, so elements that compare equal keep their order. *)
Variable before : A -> A -> bool.

Fixpoint insert_sorted (x : A) (l : list A) : list A :=
  match l with
  | [] => [x]
  | y :: l' => if before x y then x :: l else y :: insert_sorted x l'
  end.

Fixpoint stable_sort (l : list A) : list A :=
  match l with
  | [] => []
  | x :: l' => insert_sorted x (stable_sort l')
  end.

End Series.

(** [Series.unique]: the distinct values in order of first appearance. *)
Fixpoint unique (l : list string) : list string :=
  match l with
  | [] => []
  | x :: l' => x :: filter (fun y => negb (String.eqb x y)) (unique l')
  end.

(** The builtin [sorted] on a list of [str]: ascending by code points. *)
Definition sorted (l : list string) : list string := stable_sort String.leb l.

(** [Series.isin(values)] on one cell. *)
Definition isin (values : list string) (x : string) : bool :=
  existsb (String.eqb x) values.

Fixpoint sumQ (l : list Q) : Q :=
  match l with
  | [] => 0%Q
  | x :: l' => (x + sumQ l')%Q
  end.

(** The int64 value that an integer wraps around to. *)
Definition int64 (z : Z) : Z := (z + 2 ^ 63) mod 2 ^ 64 - 2 ^ 63.

(** [Series.sum] of an int64 column: the sum of the cells, wrapped
    around to int64. *)
Definition sumZ (l : list Z) : Z := int64 (fold_right Z.add 0 l).

(** [Series.mean]: NaN (here [None]) on an empty series. *)
Definition meanQ (l : list Q) : option Q :=
  match l with
  | [] => None
  | _ => Some (sumQ l / inject_Z (Z.of_nat (List.length l)))%Q
  end.

(** [Series.min] and [Series.max] of a timestamp column; NaT on an
    empty one. *)
Definition series_min (l : list Z) : option Z :=
  match l with
  | [] => None
  | x :: l' => Some (fold_left Z.min l' x)
  end.

Definition series_max (l : list Z) : option Z :=
  match l with
  | [] => None
  | x :: l' => Some (fold_left Z.max l' x)
  end.

(** ** The data model *)

Record Row := mkRow {
  Fecha : Z;
  Region : string;
  Producto : string;
  Canal : string;
  Categoria : string;
  Laboratorio : string;
  Vendedor : string;
  Ventas : Q;
  Unidades : Z;
  Inventario : Q
}.

Definition DataFrame := list Row.

(** The six columns that carry a sidebar filter, in the order of the
    [filters] dictionary. *)
Inductive Column := ColRegion | ColProducto | ColCanal | ColCategoria | ColLaboratorio | ColVendedor.

Definition col (k : Column) (r : Row) : string :=
  match k with
  | ColRegion => Region r
  | ColProducto => Producto r
  | ColCanal => Canal r
  | ColCategoria => Categoria r
  | ColLaboratorio => Laboratorio r
  | ColVendedor => Vendedor r
  end.

Definition Column_eqb (a b : Column) : bool :=
  match a, b with
  | ColRegion, ColRegion | ColProducto, ColProducto | ColCanal, ColCanal
  | ColCategoria, ColCategoria | ColLaboratorio, ColLaboratorio
  | ColVendedor, ColVendedor => true
  | _, _ => false
  end.

Definition NS_PER_DAY : Z := 86400000000000.

(** [Timestamp.date()] and [Series.dt.date]: the day a timestamp falls on. *)
Definition date_of (ts : Z) : Z := ts / NS_PER_DAY.

Definition fecha_date (r : Row) : Z := date_of (Fecha r).

(** What the script shows through Streamlit. *)
Inductive Msg :=
| StError (text : string)
| StWarning (text : string)
| SidebarWarning (text : string).

(** ** load_data *)

(** What [pd.read_csv] does on the data file: it raises
    [FileNotFoundError], raises another exception whose [str] is [e],
    or returns the parsed frame. *)
Inductive ReadCsv :=
| RaisesFileNotFound
| RaisesOther (e : string)
| Returns (df : DataFrame).

Definition set_Region (v : string) (r : Row) : Row :=
  mkRow (Fecha r) v (Producto r) (Canal r) (Categoria r) (Laboratorio r)
        (Vendedor r) (Ventas r) (Unidades r) (Inventario r).

(** [df['Región'].str.title().str.strip()] on one cell. *)
Definition normalize_region (v : string) : string :=
  Utf8.encode (Text.title_strip (Utf8.decode v)).

Definition MSG_EMPTY : string := "El archivo de datos está vacío.".
Definition MSG_NOT_FOUND : string :=
  "No se encontró el archivo de datos. Verifica la ruta: 'data/pharma_data_altibajos.csv'".
Definition MSG_LOAD_PREFIX : string := "Error al cargar los datos: ".

(** Lines 18-45.  A [Row] always has its region, so the test
    ['Región' in df.columns] of line 35 holds. *)
Definition load_data (csv : ReadCsv) : list Msg * option DataFrame :=
  match csv with
  | Returns df =>
      match df with
      | [] => ([StError MSG_EMPTY], None)
      | _ => ([], Some (map (fun r => set_Region (normalize_region (Region r)) r) df))
      end
  | RaisesFileNotFound => ([StError MSG_NOT_FOUND], None)
  | RaisesOther e => ([StError (MSG_LOAD_PREFIX ++ e)%string], None)
  end.

(** The start of the script: [df = load_data()], then [st.stop()] when
    [df is None]. *)
Inductive Startup :=
| Stopped (shown : list Msg)
| Loaded (shown : list Msg) (df : DataFrame).

Definition startup (csv : ReadCsv) : Startup :=
  match load_data csv with
  | (shown, None) => Stopped shown
  | (shown, Some df) => Loaded shown df
  end.

(** ** The sidebar and the filter engine (lines 73-119) *)

(** What the user does with the sidebar widgets: [date_input] is the
    tuple [st.sidebar.date_input] returns when offered the pair
    [(min_date, max_date)], and [multiselect k options] the list the
    multiselect of column [k] returns when offered [options]. *)
Record User := mkUser {
  date_input : Z * Z -> list Z;
  multiselect : Column -> list string -> list string
}.

Definition MSG_DATE_RANGE : string := "Por favor, selecciona un rango de fechas válido.".
Definition MSG_NO_DATA : string :=
  "⚠️ No hay datos disponibles para los filtros seleccionados. Ajusta tus selecciones.".

(** Lines 83-88: the date filter. *)
Definition date_filter (df : DataFrame) (date_range : list Z) : list Msg * DataFrame :=
  match date_range with
  | [start_date; end_date] =>
      ([], filter (fun r => (start_date <=? fecha_date r) && (fecha_date r <=? end_date)) df)
  | _ => ([SidebarWarning MSG_DATE_RANGE], df)
  end.

Definition filter_keys : list Column :=
  [ColRegion; ColProducto; ColCanal; ColCategoria; ColLaboratorio; ColVendedor].

(** Lines 91-98: the options of each filter, from the frame the date
    filter left. *)
Definition filters (df_filtered : DataFrame) (k : Column) : list string :=
  sorted (unique (map (col k) df_filtered)).

(** Lines 101-109. *)
Definition selected_filters (select : Column -> list string -> list string)
    (df_filtered : DataFrame) : list (Column * list string) :=
  map (fun k => (k, select k (filters df_filtered k))) filter_keys.

(** Line 113-114, the body of the loop: an empty list is falsy, so it
    filters nothing. *)
Definition filter_by (df_filtered : DataFrame) (kv : Column * list string) : DataFrame :=
  match snd kv with
  | [] => df_filtered
  | values => filter (fun r => isin values (col (fst kv) r)) df_filtered
  end.

(** Lines 112-114. *)
Definition apply_selected (selected : list (Column * list string)) (df_filtered : DataFrame) : DataFrame :=
  fold_left filter_by selected df_filtered.

(** Lines 83-114 together: the warnings shown and [df_filtered]. *)
Definition filter_engine (df : DataFrame) (date_range : list Z)
    (select : Column -> list string -> list string) : list Msg * DataFrame :=
  let '(shown, dated) := date_filter df date_range in
  (shown, apply_selected (selected_filters select dated) dated).

Definition min_date (df : DataFrame) : option Z := option_map date_of (series_min (map Fecha df)).
Definition max_date (df : DataFrame) : option Z := option_map date_of (series_max (map Fecha df)).

(** Lines 74-119 on a loaded frame: [None] stands for [st.stop()]. *)
Definition sidebar (df : DataFrame) (u : User) : list Msg * option DataFrame :=
  match min_date df, max_date df with
  | Some lo, Some hi =>
      let '(shown, view) := filter_engine df (date_input u (lo, hi)) (multiselect u) in
      match view with
      | [] => (shown ++ [StWarning MSG_NO_DATA], None)
      | _ => (shown, Some view)
      end
  | _, _ => ([], None)
  end.

(** The user who leaves every widget at its default. *)
Definition default_user : User :=
  mkUser (fun range => [fst range; snd range]) (fun _ options => options).

(** ** KPIs (lines 126-130) *)

Inductive Exception := ZeroDivisionError.

Inductive Result (A : Type) :=
| Ok (value : A)
| Raise (e : Exception).
Arguments Ok {A} value.
Arguments Raise {A} e.

(** The operator [/], which raises on a zero divisor. *)
Definition truediv (a : Q) (b : Z) : Result Q :=
  if b =? 0 then Raise ZeroDivisionError else Ok (a / inject_Z b)%Q.

Definition ventas_totales (v : DataFrame) : Q := sumQ (map Ventas v).
Definition unidades_totales (v : DataFrame) : Z := sumZ (map Unidades v).
Definition inventario_prom (v : DataFrame) : option Q := meanQ (map Inventario v).

Definition precio_unitario (v : DataFrame) : Result Q :=
  if unidades_totales v >? 0 then truediv (ventas_totales v) (unidades_totales v) else Ok 0%Q.

(** ** Grouped sums and the top ten (lines 151 and 260) *)

(** [df.groupby(key, as_index=False)["Ventas"].sum()]: one entry per
    distinct key, keys ascending. *)
Definition groupby_sum (key : Row -> string) (v : DataFrame) : list (string * Q) :=
  map (fun k => (k, sumQ (map Ventas (filter (fun r => String.eqb (key r) k) v))))
      (sorted (unique (map key v))).

(** [sort_values(ascending=False)] with the default [kind='quicksort'],
    which is not stable: entries of equal value come out in an order
    that numpy chooses.  [tie_rank] stands for that choice: of two
    entries of equal value the one of smaller rank comes first. *)
Definition ranked_before (tie_rank : string * Q -> nat) (x y : string * Q) : bool :=
  negb (Qle_bool (snd x) (snd y))
  || (Qle_bool (snd y) (snd x) && (tie_rank x <=? tie_rank y)%nat).

Definition sort_values_desc (tie_rank : string * Q -> nat) (g : list (string * Q))
    : list (string * Q) :=
  stable_sort (ranked_before tie_rank) g.

(** [nlargest(n, "Ventas")] with the default [keep='first'].  When [n]
    is at least the number of entries pandas sorts them all with
    [sort_values] and takes the head; otherwise it picks the [n]
    largest and orders them with a stable sort, entries of equal value
    in the order they have in the frame. *)
Definition nlargest (tie_rank : string * Q -> nat) (n : nat) (g : list (string * Q))
    : list (string * Q) :=
  if (List.length g <=? n)%nat
  then firstn n (sort_values_desc tie_rank g)
  else firstn n (stable_sort (fun x y => Qle_bool (snd y) (snd x)) g).

Definition top_productos (tie_rank : string * Q -> nat) (v : DataFrame) : list (string * Q) :=
  nlargest tie_rank 10 (groupby_sum Producto v).
Definition top_vendedores (tie_rank : string * Q -> nat) (v : DataFrame) : list (string * Q) :=
  nlargest tie_rank 10 (groupby_sum Vendedor v).

(** ** The calendar *)

(** The proleptic Gregorian calendar of [datetime.date], on day numbers
    counted from 1970-01-01 (the ordinal of [datetime.date] less 719163). *)
Module Calendar.

Definition is_leap (y : Z) : bool :=
  (y mod 4 =? 0) && (negb (y mod 100 =? 0) || (y mod 400 =? 0)).

Definition leap_day (y : Z) : Z := if is_leap y then 1 else 0.

(** Day number of the first of January of year [y]. *)
Definition days_before_year (y : Z) : Z :=
  365 * (y - 1) + (y - 1) / 4 - (y - 1) / 100 + (y - 1) / 400 - 719162.

Definition days_in_month (y m : Z) : Z :=
  match m with
  | 2 => 28 + leap_day y
  | 4 | 6 | 9 | 11 => 30
  | _ => 31
  end.

(** Days of year [y] before the first of month [m]. *)
Definition days_before_month (y m : Z) : Z :=
  match m with
  | 2 => 31
  | 3 => 59 + leap_day y
  | 4 => 90 + leap_day y
  | 5 => 120 + leap_day y
  | 6 => 151 + leap_day y
  | 7 => 181 + leap_day y
  | 8 => 212 + leap_day y
  | 9 => 243 + leap_day y
  | 10 => 273 + leap_day y
  | 11 => 304 + leap_day y
  | 12 => 334 + leap_day y
  | _ => 0
  end.

(** Day number of the date [y]-[m]-[d]. *)
Definition days_from_civil (y m d : Z) : Z :=
  days_before_year y + days_before_month y m + d - 1.

(** The year of a day number: an estimate from the mean length of a
    year, put right by one year where it is off. *)
Definition year (z : Z) : Z :=
  let y0 := 1970 + 400 * z / 146097 in
  if z <? days_before_year y0 then y0 - 1
  else if days_before_year (y0 + 1) <=? z then y0 + 1
  else y0.

(** The month that holds the day with [n] days of the year before it;
    [l] is 1 in a leap year and 0 otherwise. *)
Definition month_of_yday (l n : Z) : Z :=
  if n <? 31 then 1
  else if n <? 59 + l then 2
  else if n <? 90 + l then 3
  else if n <? 120 + l then 4
  else if n <? 151 + l then 5
  else if n <? 181 + l then 6
  else if n <? 212 + l then 7
  else if n <? 243 + l then 8
  else if n <? 273 + l then 9
  else if n <? 304 + l then 10
  else if n <? 334 + l then 11
  else 12.

Definition month (z : Z) : Z :=
  month_of_yday (leap_day (year z)) (z - days_before_year (year z)).

Definition day (z : Z) : Z :=
  z - days_before_year (year z) - days_before_month (year z) (month z) + 1.

Definition civil_from_days (z : Z) : Z * Z * Z := (year z, month z, day z).

(** [date.weekday()]: Monday is 0, Sunday is 6. *)
Definition weekday (z : Z) : Z := (z + 3) mod 7.

(** The last month of the quarter month [m] lies in. *)
Definition quarter_last_month (m : Z) : Z := 3 * ((m - 1) / 3) + 3.

End Calendar.

(** ** The trend table (lines 186-206) *)

Inductive Periodo := Diario | Semanal | Mensual | Trimestral | Anual.

(** The pandas offset aliases the script uses. *)
Inductive Freq := FreqD | FreqW_MON | FreqM | FreqQ | FreqY.

Definition period_code (p : Periodo) : Freq :=
  match p with
  | Diario => FreqD
  | Semanal => FreqW_MON
  | Mensual => FreqM
  | Trimestral => FreqQ
  | Anual => FreqY
  end.

(** The label [resample] gives to the bin that holds day [d]: the day
    itself for "D", and the last day of the bin for the others, which
    all close and label their bins on the right: the Monday on or after
    [d] for "W-MON", the end of the month, of the quarter, of the year. *)
Definition bin_label (f : Freq) (d : Z) : Z :=
  match f with
  | FreqD => d
  | FreqW_MON => d + (7 - Calendar.weekday d) mod 7
  | FreqM =>
      Calendar.days_from_civil (Calendar.year d) (Calendar.month d)
        (Calendar.days_in_month (Calendar.year d) (Calendar.month d))
  | FreqQ =>
      let m := Calendar.quarter_last_month (Calendar.month d) in
      Calendar.days_from_civil (Calendar.year d) m (Calendar.days_in_month (Calendar.year d) m)
  | FreqY => Calendar.days_from_civil (Calendar.year d) 12 31
  end.

(** The labels from [e] up to [last], each one the label of the bin
    that starts the day after the one before. *)
Fixpoint bins_from (f : Freq) (fuel : nat) (e last : Z) : list Z :=
  e :: match fuel with
       | O => []
       | S fuel' => if e <? last then bins_from f fuel' (bin_label f (e + 1)) last else []
       end.

(** The labels of all bins from the one of day [first] to the one of day
    [last]; two labels are at least a day apart, so the fuel suffices. *)
Definition bin_labels (f : Freq) (first last : Z) : list Z :=
  bins_from f (Z.to_nat (bin_label f last - bin_label f first)) (bin_label f first) (bin_label f last).

Record TrendRow := mkTrendRow {
  t_Fecha : Z;
  t_Ventas : Q;
  t_Inventario : option Q;
  t_Unidades : Z
}.

(** The rows of the frame that fall in the bin labelled [e]. *)
Definition bin_rows (f : Freq) (v : DataFrame) (e : Z) : DataFrame :=
  filter (fun r => bin_label f (fecha_date r) =? e) v.

(** [agg({"Ventas": "sum", "Inventario": "mean", "Unidades": "sum"})] on
    one bin; the label is the timestamp of midnight of day [e]. *)
Definition agg_bin (f : Freq) (v : DataFrame) (e : Z) : TrendRow :=
  let rows := bin_rows f v e in
  mkTrendRow (e * NS_PER_DAY) (sumQ (map Ventas rows)) (meanQ (map Inventario rows))
             (sumZ (map Unidades rows)).

(** [v.set_index("Fecha").resample(code).agg(...).reset_index()]. *)
Definition resample_agg (f : Freq) (v : DataFrame) : list TrendRow :=
  match min_date v, max_date v with
  | Some first, Some last => map (agg_bin f v) (bin_labels f first last)
  | _, _ => []
  end.

Definition df_trend (periodo : Periodo) (df_filtered : DataFrame) : list TrendRow :=
  resample_agg (period_code periodo) df_filtered.

(** ** Small datasets *)

(** Three records dated 2024-01-01, 02 and 03 (days 19723 to 19725), as
    [pd.read_csv] returns them. *)
Definition scenario_csv : DataFrame :=
  [ mkRow (19723 * NS_PER_DAY) "lima" "Aspirina" "Farmacia" "Analgesico" "LabA" "Ana" 100%Q 10 50%Q;
    mkRow (19724 * NS_PER_DAY) "Lima " "Ibuprofeno" "Online" "Analgesico" "LabB" "Luis" 200%Q 20 70%Q;
    mkRow (19725 * NS_PER_DAY) "LIMA" "Aspirina" "Farmacia" "Analgesico" "LabA" "Ana" 300%Q 0 90%Q ].

(** The frame [load_data] makes of them. *)
Definition scenario_df : DataFrame :=
  map (fun r => set_Region (normalize_region (Region r)) r) scenario_csv.

Definition scenario_row1 : Row :=
  mkRow (19723 * NS_PER_DAY) "Lima" "Aspirina" "Farmacia" "Analgesico" "LabA" "Ana" 100%Q 10 50%Q.

(** A user who selects the region Lima and clears the other five
    multiselects. *)
Definition only_lima : Column -> list string -> list string :=
  fun k _ => match k with ColRegion => ["Lima"] | _ => [] end.

(** The views of the first two days and of the third day alone, all
    options selected. *)
Definition scenario_view_12 : DataFrame :=
  snd (filter_engine scenario_df [19723; 19724] (fun _ options => options)).
Definition scenario_view_3 : DataFrame :=
  snd (filter_engine scenario_df [19725; 19725] (fun _ options => options)).



(** Four grouped sums, two pairs of equal value, and an order that
    numpy's sort leaves equal values in: last first. *)
Definition tied_groups : list (string * Q) :=
  [("A", 0%Q); ("B", 0%Q); ("C", 1%Q); ("D", 1%Q)].

Definition last_first (x : string * Q) : nat :=
  if String.eqb (fst x) "D" then 0
  else if String.eqb (fst x) "C" then 1
  else if String.eqb (fst x) "B" then 2
  else 3.

(** One record dated 1970-01-06. *)
Definition one_row_df : DataFrame :=
  [mkRow (5 * NS_PER_DAY) "Lima" "Aspirina" "Farmacia" "Analgesico" "LabA" "Ana" 100%Q 10 50%Q].

(** Monday 2024-01-01 and Tuesday 2024-01-02. *)
Definition monday_tuesday_df : DataFrame :=
  [ mkRow (19723 * NS_PER_DAY) "Lima" "Aspirina" "Farmacia" "Analgesico" "LabA" "Ana" 100%Q 10 50%Q;
    mkRow (19724 * NS_PER_DAY) "Lima" "Aspirina" "Farmacia" "Analgesico" "LabA" "Ana" 200%Q 20 70%Q ].

(** Records on Monday 2024-01-01 and on Thursday 2024-01-04, none on
    the two days between. *)
Definition gap_df : DataFrame :=
  [ mkRow (19723 * NS_PER_DAY) "Lima" "Aspirina" "Farmacia" "Analgesico" "LabA" "Ana" 100%Q 10 50%Q;
    mkRow (19726 * NS_PER_DAY) "Lima" "Aspirina" "Farmacia" "Analgesico" "LabA" "Ana" 200%Q 20 70%Q ].

(** ** Notions the properties are stated with *)

(** Row [r] passes the selection [values] of column [k]: an empty
    selection lets every row pass. *)
Definition passes (kv : Column * list string) (r : Row) : bool :=
  match snd kv with
  | [] => true
  | values => isin values (col (fst kv) r)
  end.

(** The user [u], except that the multiselect of column [k] answers with
    [answer]. *)
Definition with_select (k : Column) (answer : list string -> list string)
    (select : Column -> list string -> list string) : Column -> list string -> list string :=
  fun k' options => if Column_eqb k' k then answer options else select k' options.

(** The test the filter engine makes of a row when column [k] is left
    out: the selections of the other five columns. *)
Definition passes_but (k : Column) (select : Column -> list string -> list string)
    (d : DataFrame) (r : Row) : bool :=
  forallb (fun k' => Column_eqb k' k || passes (k', select k' (filters d k')) r) filter_keys.

(** The three kinds of failure of the loader the specification names. *)
Inductive FailureKind := MissingSource | EmptySource | MalformedSource.

(** Two texts differ at most in case and in surrounding whitespace. *)
Definition same_modulo_case_ws (a b : string) : Prop :=
  Text.strip (Text.lower (Utf8.decode a)) = Text.strip (Text.lower (Utf8.decode b)).


(** A UTF-8 text of simple characters. *)
Definition simple_string (v : string) : bool :=
  Text.simple_text (Utf8.decode v) && String.eqb (Utf8.encode (Utf8.decode v)) v.

(** The entries of [g] whose value equals [v]. *)
Definition tied_at (v : Q) (g : list (string * Q)) : list (string * Q) :=
  filter (fun x => Qeq_bool (snd x) v) g.

(** Day [d] lies in the calendar period that ends with day [e]: the day
    itself, the week from Tuesday to Monday, the month, the quarter or
    the year. *)
Definition in_period (f : Freq) (d e : Z) : bool :=
  match f with
  | FreqD => e =? d
  | FreqW_MON => (Calendar.weekday e =? 0) && (e - 6 <=? d) && (d <=? e)
  | FreqM =>
      (Calendar.year e =? Calendar.year d) && (Calendar.month e =? Calendar.month d)
      && (Calendar.day e =? Calendar.days_in_month (Calendar.year e) (Calendar.month e))
  | FreqQ =>
      (Calendar.year e =? Calendar.year d)
      && ((Calendar.month e - 1) / 3 =? (Calendar.month d - 1) / 3)
      && (Calendar.month e mod 3 =? 0)
      && (Calendar.day e =? Calendar.days_in_month (Calendar.year e) (Calendar.month e))
  | FreqY =>
      (Calendar.year e =? Calendar.year d) && (Calendar.month e =? 12) && (Calendar.day e =? 31)
  end.

(** The Monday that starts the week of day [d]. *)
Definition week_starting_monday (d : Z) : Z := d - Calendar.weekday d.

(** ** More of the script *)

(** Line 130: [df_filtered.groupby('Vendedor')['Ventas'].sum().mean()]. *)
Definition ventas_prom_vendedor (v : DataFrame) : option Q :=
  meanQ (map snd (groupby_sum Vendedor v)).

(** Lines 167 and 241. *)
Definition ventas_cat (v : DataFrame) : list (string * Q) := groupby_sum Categoria v.
Definition df_canal (v : DataFrame) : list (string * Q) := groupby_sum Canal v.

(** Lines 279-283, the frame before the sort of line 286:
    [groupby("Región").agg({"Ventas": "sum", "Unidades": "sum",
    "Producto": "nunique"})], one row per region, regions ascending. *)
Record CityRow := mkCityRow {
  c_Region : string;
  c_Ventas : Q;
  c_Unidades : Z;
  c_Productos_Diferentes : nat
}.

Definition region_rows (v : DataFrame) (k : string) : DataFrame :=
  filter (fun r => String.eqb (Region r) k) v.

Definition ventas_ciudad_agg (v : DataFrame) : list CityRow :=
  map (fun k =>
         let rows := region_rows v k in
         mkCityRow k (sumQ (map Ventas rows)) (sumZ (map Unidades rows))
                   (List.length (unique (map Producto rows))))
      (sorted (unique (map Region v))).

(** The rows of the groups of a key, taken group after group. *)
Definition grouped_rows (key : Row -> string) (v : DataFrame) : DataFrame :=
  flat_map (fun k => filter (fun r => String.eqb (key r) k) v) (map fst (groupby_sum key v)).

(** The selections of a user who picks fixed sets of values, whatever
    the options offered. *)
Definition fixed_select (sets : Column -> list string) : Column -> list string -> list string :=
  fun k _ => sets k.

(** * Properties *)

(** ** Sorting and distinct values *)

Section SeriesFacts.

Context {A : Type}.
Variable before : A -> A -> bool.

Lemma insert_sorted_perm (x : A) (l : list A) :
  Permutation (insert_sorted before x l) (x :: l).
Proof.
  induction l as [|y l IH]; simpl; [reflexivity|].
  destruct (before x y); [reflexivity|].
  rewrite IH. apply perm_swap.
Qed.

Lemma stable_sort_perm (l : list A) : Permutation (stable_sort before l) l.
Proof.
  induction l as [|x l IH]; simpl; [constructor|].
  rewrite insert_sorted_perm. now constructor.
Qed.

Lemma stable_sort_length (l : list A) :
  List.length (stable_sort before l) = List.length l.
Proof. apply Permutation_length, stable_sort_perm. Qed.

Lemma stable_sort_In (x : A) (l : list A) : In x (stable_sort before l) <-> In x l.
Proof.
  split; apply Permutation_in; [|symmetry]; apply stable_sort_perm.
Qed.

(** Elements that may each stand before the other are never swapped. *)
Section Stability.

Variable tied : A -> bool.
Hypothesis tied_before : forall x y, tied x = true -> tied y = true -> before x y = true.

Lemma insert_sorted_tied (x : A) (l : list A) :
  filter tied (insert_sorted before x l) = filter tied (x :: l).
Proof.
  induction l as [|y l IH]; [reflexivity|].
  simpl insert_sorted. destruct (before x y) eqn:Hxy; [reflexivity|].
  cbn [filter]. rewrite IH. cbn [filter].
  destruct (tied x) eqn:Hx, (tied y) eqn:Hy; try reflexivity.
  rewrite (tied_before x y Hx Hy) in Hxy. discriminate.
Qed.

Lemma stable_sort_tied (l : list A) :
  filter tied (stable_sort before l) = filter tied l.
Proof.
  induction l as [|x l IH]; [reflexivity|].
  simpl stable_sort. rewrite insert_sorted_tied. simpl. now rewrite IH.
Qed.

End Stability.

(** With a total and transitive order the result is sorted. *)
Section Order.

Hypothesis ranked_before_total : forall x y, before x y = false -> before y x = true.
Hypothesis ranked_before_trans :
  forall x y z, before x y = true -> before y z = true -> before x z = true.

Lemma insert_sorted_StronglySorted (x : A) (l : list A) :
  StronglySorted (fun a b => before a b = true) l ->
  StronglySorted (fun a b => before a b = true) (insert_sorted before x l).
Proof.
  induction 1 as [|y l Hl IH Hy]; simpl.
  - repeat constructor.
  - destruct (before x y) eqn:Hxy.
    + constructor; [now constructor|].
      constructor; [exact Hxy|].
      rewrite Forall_forall in *. intros z Hz.
      apply (ranked_before_trans x y z Hxy). now apply Hy.
    + constructor; [exact IH|].
      rewrite Forall_forall in *. intros z Hz.
      apply (Permutation_in _ (insert_sorted_perm x l)) in Hz.
      destruct Hz as [<-|Hz]; [now apply ranked_before_total | now apply Hy].
Qed.

Lemma stable_sort_StronglySorted (l : list A) :
  StronglySorted (fun a b => before a b = true) (stable_sort before l).
Proof.
  induction l as [|x l IH]; simpl; [constructor|].
  now apply insert_sorted_StronglySorted.
Qed.

End Order.

End SeriesFacts.

Lemma StronglySorted_firstn {A : Type} (R : A -> A -> Prop) (n : nat) (l : list A) :
  StronglySorted R l -> StronglySorted R (firstn n l).
Proof.
  intros H. revert n. induction H as [|x l Hl IH Hx]; intros [|n]; simpl; try constructor.
  - apply IH.
  - rewrite Forall_forall in *. intros y Hy. apply Hx.
    rewrite <- (firstn_skipn n l). apply in_or_app. now left.
Qed.

(** What a filter leaves of a prefix is a prefix of what it leaves of
    the whole. *)
Lemma filter_firstn_prefix {A : Type} (p : A -> bool) (n : nat) (l : list A) :
  exists rest, filter p l = filter p (firstn n l) ++ rest.
Proof.
  exists (filter p (skipn n l)).
  now rewrite <- filter_app, firstn_skipn.
Qed.

Lemma unique_In (x : string) (l : list string) : In x (unique l) <-> In x l.
Proof.
  induction l as [|y l IH]; simpl; [tauto|].
  rewrite filter_In, IH. split.
  - intros [H|[H _]]; auto.
  - intros [H|H]; auto.
    destruct (String.eqb_spec y x) as [E|E]; auto.
Qed.

Lemma unique_NoDup (l : list string) : NoDup (unique l).
Proof.
  induction l as [|y l IH]; simpl; constructor.
  - rewrite filter_In. intros [_ H]. now rewrite String.eqb_refl in H.
  - now apply NoDup_filter.
Qed.

Lemma sorted_In (x : string) (l : list string) : In x (sorted l) <-> In x l.
Proof. apply stable_sort_In. Qed.

Lemma sorted_NoDup (l : list string) : NoDup l -> NoDup (sorted l).
Proof.
  apply Permutation_NoDup. symmetry. apply stable_sort_perm.
Qed.

Lemma isin_In (values : list string) (x : string) : isin values x = true <-> In x values.
Proof.
  unfold isin. rewrite existsb_exists. split.
  - intros [y [Hy E]]. apply String.eqb_eq in E. now subst.
  - intros H. exists x. split; [exact H | apply String.eqb_refl].
Qed.

(** ** The filter engine *)

Lemma filter_twice {A : Type} (p q : A -> bool) (l : list A) :
  filter q (filter p l) = filter (fun x => p x && q x) l.
Proof.
  induction l as [|x l IH]; simpl; [reflexivity|].
  destruct (p x); simpl; [destruct (q x)|]; now rewrite IH.
Qed.

Lemma filter_all {A : Type} (p : A -> bool) (l : list A) :
  (forall x, In x l -> p x = true) -> filter p l = l.
Proof.
  induction l as [|x l IH]; simpl; intros H; [reflexivity|].
  rewrite (H x) by now left. f_equal. apply IH. intros y Hy. apply H. now right.
Qed.

Lemma filter_none {A : Type} (p : A -> bool) (l : list A) :
  (forall x, In x l -> p x = false) -> filter p l = [].
Proof.
  induction l as [|x l IH]; simpl; intros H; [reflexivity|].
  rewrite (H x) by now left. apply IH. intros y Hy. apply H. now right.
Qed.

(** The loop of lines 112-114 is one filter by the conjunction of the
    selections. *)
Lemma apply_selected_filter (selected : list (Column * list string)) (d : DataFrame) :
  apply_selected selected d = filter (fun r => forallb (fun kv => passes kv r) selected) d.
Proof.
  revert d. induction selected as [|kv selected IH]; intros d.
  - simpl. symmetry. now apply filter_all.
  - unfold apply_selected in *. cbn [fold_left].
    assert (E : filter_by d kv = filter (passes kv) d).
    { unfold filter_by, passes. destruct (snd kv); [symmetry; now apply filter_all | reflexivity]. }
    rewrite E, IH, filter_twice. reflexivity.
Qed.

Lemma forallb_selected (select : Column -> list string -> list string) (d : DataFrame) (r : Row) :
  forallb (fun kv => passes kv r) (selected_filters select d) = true <->
  forall k, passes (k, select k (filters d k)) r = true.
Proof.
  unfold selected_filters. rewrite forallb_forall. split.
  - intros H k. apply H. apply in_map_iff. exists k. split; [reflexivity|].
    destruct k; simpl; tauto.
  - intros H kv Hkv. apply in_map_iff in Hkv. destruct Hkv as [k [<- _]]. apply H.
Qed.

Lemma filters_In (d : DataFrame) (k : Column) (r : Row) : In r d -> In (col k r) (filters d k).
Proof.
  intros H. unfold filters. rewrite sorted_In, unique_In. now apply in_map.
Qed.

Lemma fold_min_le (l : list Z) (a x : Z) : In x (a :: l) -> fold_left Z.min l a <= x.
Proof.
  revert a x. induction l as [|y l IH]; intros a x H; simpl.
  - destruct H as [<-|[]]. lia.
  - destruct H as [<-|[<-|H]].
    + etransitivity; [apply IH; now left | lia].
    + etransitivity; [apply IH; now left | lia].
    + apply IH. now right.
Qed.

Lemma fold_max_ge (l : list Z) (a x : Z) : In x (a :: l) -> x <= fold_left Z.max l a.
Proof.
  revert a x. induction l as [|y l IH]; intros a x H; simpl.
  - destruct H as [<-|[]]. lia.
  - destruct H as [<-|[<-|H]].
    + etransitivity; [|apply IH; now left]. lia.
    + etransitivity; [|apply IH; now left]. lia.
    + apply IH. now right.
Qed.

Lemma date_of_mono (a b : Z) : a <= b -> date_of a <= date_of b.
Proof. intros H. apply Z.div_le_mono; [reflexivity | exact H]. Qed.

Lemma min_date_le (df : DataFrame) (lo : Z) (r : Row) :
  min_date df = Some lo -> In r df -> lo <= fecha_date r.
Proof.
  unfold min_date, series_min. destruct df as [|r0 df]; [discriminate|].
  cbn [map option_map]. intros [= <-] H. apply date_of_mono, fold_min_le.
  change (In (Fecha r) (map Fecha (r0 :: df))). now apply in_map.
Qed.

Lemma max_date_ge (df : DataFrame) (hi : Z) (r : Row) :
  max_date df = Some hi -> In r df -> fecha_date r <= hi.
Proof.
  unfold max_date, series_max. destruct df as [|r0 df]; [discriminate|].
  cbn [map option_map]. intros [= <-] H. apply date_of_mono, fold_max_ge.
  change (In (Fecha r) (map Fecha (r0 :: df))). now apply in_map.
Qed.

Lemma date_filter_full (df : DataFrame) (lo hi : Z) :
  min_date df = Some lo -> max_date df = Some hi -> date_filter df [lo; hi] = ([], df).
Proof.
  intros Hlo Hhi. unfold date_filter. f_equal. apply filter_all. intros r Hr.
  apply andb_true_intro. split; apply Z.leb_le.
  - now apply (min_date_le df).
  - now apply (max_date_ge df).
Qed.

(** C1. Filter soundness: whatever the two dates and the six selections,
    every row of the filtered view is a row of the dataset, its date
    lies between the start and the end date, both included, and for each
    of the six columns whose selection is not empty its value in that
    column is one of the selected values. *)
Theorem filter_engine_sound (df : DataFrame) (start_date end_date : Z)
    (select : Column -> list string -> list string) (r : Row) :
  let dated := snd (date_filter df [start_date; end_date]) in
  In r (snd (filter_engine df [start_date; end_date] select)) ->
  In r df /\
  start_date <= fecha_date r <= end_date /\
  forall k, select k (filters dated k) <> [] -> In (col k r) (select k (filters dated k)).
Proof.
  cbn zeta. unfold filter_engine. cbn [date_filter snd].
  rewrite apply_selected_filter. intros H.
  apply filter_In in H. destruct H as [H Hsel].
  apply filter_In in H. destruct H as [Hdf Hdate].
  apply andb_prop in Hdate. destruct Hdate as [H1 H2].
  apply Z.leb_le in H1, H2.
  split; [exact Hdf|]. split; [lia|].
  intros k Hk. rewrite forallb_selected in Hsel. specialize (Hsel k).
  unfold passes in Hsel. cbn [fst snd] in Hsel.
  destruct (select k _) eqn:E; [congruence|]. now apply isin_In.
Qed.

Lemma filter_engine_sound_witness :
  In scenario_row1 scenario_df /\
  19723 <= fecha_date scenario_row1 <= 19724 /\
  forall k,
    only_lima k (filters (snd (date_filter scenario_df [19723; 19724])) k) <> [] ->
    In (col k scenario_row1) (only_lima k (filters (snd (date_filter scenario_df [19723; 19724])) k)).
Proof.
  apply (filter_engine_sound scenario_df 19723 19724 only_lima scenario_row1).
  vm_compute. left. reflexivity.
Defined.

Lemma passes_options (d : DataFrame) (k : Column) (r : Row) :
  In r d -> passes (k, filters d k) r = true.
Proof.
  intros H. unfold passes. cbn [fst snd].
  destruct (filters d k) eqn:E; [reflexivity|].
  rewrite <- E. apply isin_In. now apply filters_In.
Qed.

Lemma default_selection_keeps_all (d : DataFrame) :
  apply_selected (selected_filters (fun _ options => options) d) d = d.
Proof.
  rewrite apply_selected_filter. apply filter_all. intros r Hr.
  apply forallb_selected. intros k. now apply passes_options.
Qed.

Lemma dates_of_nonempty (df : DataFrame) :
  df <> [] -> exists lo hi, min_date df = Some lo /\ max_date df = Some hi.
Proof.
  destruct df as [|r df]; [congruence|]. intros _.
  unfold min_date, max_date. cbn [map series_min series_max option_map]. eauto.
Qed.

Lemma default_engine_identity (df : DataFrame) (lo hi : Z) :
  min_date df = Some lo -> max_date df = Some hi ->
  filter_engine df [lo; hi] (fun _ options => options) = ([], df).
Proof.
  intros Hlo Hhi. unfold filter_engine. rewrite (date_filter_full df lo hi Hlo Hhi).
  now rewrite default_selection_keeps_all.
Qed.

(** C2. Identity: on a dataset that has rows, the user who leaves the
    date range at the whole span from the earliest to the latest date
    and every multiselect at all of its options gets the dataset back,
    the same rows in the same order, and no message. *)
Theorem default_filters_identity (df : DataFrame) :
  df <> [] ->
  sidebar df default_user = ([], Some df) /\
  exists lo hi,
    min_date df = Some lo /\ max_date df = Some hi /\
    filter_engine df [lo; hi] (fun _ options => options) = ([], df).
Proof.
  intros Hne.
  destruct (dates_of_nonempty df Hne) as [lo [hi [Hlo Hhi]]].
  pose proof (default_engine_identity df lo hi Hlo Hhi) as E.
  split.
  - unfold sidebar. rewrite Hlo, Hhi. cbn [default_user date_input multiselect fst snd].
    rewrite E. destruct df; [congruence | reflexivity].
  - exists lo, hi. auto.
Qed.

Lemma default_filters_identity_witness :
  sidebar scenario_df default_user = ([], Some scenario_df) /\
  exists lo hi,
    min_date scenario_df = Some lo /\ max_date scenario_df = Some hi /\
    filter_engine scenario_df [lo; hi] (fun _ options => options) = ([], scenario_df).
Proof.
  apply (default_filters_identity scenario_df). discriminate.
Defined.

Lemma passes_cleared (k : Column) (select : Column -> list string -> list string)
    (d : DataFrame) (r : Row) :
  forallb (fun kv => passes kv r) (selected_filters (with_select k (fun _ => []) select) d)
  = passes_but k select d r.
Proof. destruct k; reflexivity. Qed.

Lemma passes_all_options (k : Column) (select : Column -> list string -> list string)
    (d : DataFrame) (r : Row) :
  In r d ->
  forallb (fun kv => passes kv r) (selected_filters (with_select k (fun options => options) select) d)
  = passes_but k select d r.
Proof.
  intros H. pose proof (passes_options d k r H) as P.
  destruct k; cbn -[passes]; cbn -[passes] in P; now rewrite P.
Qed.

(** C4. An empty selection is no restriction: when the multiselect of a
    column returns the empty list, the filter engine makes no membership
    test for that column; the view is the one the selections of the other
    five columns give, the same as with all options of the column
    selected, and a column cleared on its own, all else at the default,
    leaves the whole dataset. *)
Theorem empty_selection_unrestricted (df : DataFrame) (date_range : list Z)
    (select : Column -> list string -> list string) (k : Column) :
  let cleared := with_select k (fun _ => []) select in
  let dated := snd (date_filter df date_range) in
  snd (filter_engine df date_range cleared) = filter (passes_but k select dated) dated /\
  filter_engine df date_range cleared
  = filter_engine df date_range (with_select k (fun options => options) select) /\
  (df <> [] ->
   sidebar df (mkUser (date_input default_user)
                      (with_select k (fun _ => []) (multiselect default_user)))
   = ([], Some df)).
Proof.
  cbn zeta. unfold filter_engine.
  destruct (date_filter df date_range) as [shown dated] eqn:Hd. cbn [snd].
  assert (E1 : apply_selected (selected_filters (with_select k (fun _ => []) select) dated) dated
               = filter (passes_but k select dated) dated).
  { rewrite apply_selected_filter. apply filter_ext. intros r. apply passes_cleared. }
  assert (E2 : apply_selected
                 (selected_filters (with_select k (fun options => options) select) dated) dated
               = filter (passes_but k select dated) dated).
  { rewrite apply_selected_filter. apply filter_ext_in. intros r Hr.
    now apply passes_all_options. }
  split; [exact E1|]. split; [now rewrite E1, E2|].
  intros Hne.
  destruct (dates_of_nonempty df Hne) as [lo [hi [Hlo Hhi]]].
  pose proof (default_engine_identity df lo hi Hlo Hhi) as Hall.
  unfold sidebar. rewrite Hlo, Hhi. cbn [default_user date_input multiselect fst snd].
  unfold filter_engine in *. rewrite (date_filter_full df lo hi Hlo Hhi) in *.
  injection Hall as Hall.
  assert (E3 : apply_selected
                 (selected_filters (with_select k (fun _ => []) (fun _ options => options)) df) df
               = df).
  { rewrite apply_selected_filter.
    rewrite (filter_ext _ _ (passes_cleared k (fun _ options => options) df)).
    rewrite <- (filter_ext_in _ _ _ (fun r Hr => passes_all_options k (fun _ options => options) df r Hr)).
    rewrite <- apply_selected_filter.
    assert (S : selected_filters (with_select k (fun options => options) (fun _ options => options)) df
                = selected_filters (fun _ options => options) df) by (destruct k; reflexivity).
    now rewrite S. }
  rewrite E3. destruct df; [congruence | reflexivity].
Qed.

Lemma empty_selection_unrestricted_witness :
  sidebar scenario_df (mkUser (date_input default_user)
                              (with_select ColRegion (fun _ => []) (multiselect default_user)))
  = ([], Some scenario_df).
Proof.
  apply (empty_selection_unrestricted scenario_df [] (multiselect default_user) ColRegion).
  discriminate.
Defined.

(** C5, as the code has it.  A date range that is not a pair of dates
    (one date picked, or none) is not applied: the frame goes on whole
    and a warning is shown in the sidebar.  A pair is always applied as
    it stands, so one whose end lies before its start keeps no row and
    shows no warning. *)
Theorem date_filter_fallback (df : DataFrame) (date_range : list Z) :
  (List.length date_range <> 2%nat ->
   date_filter df date_range = ([SidebarWarning MSG_DATE_RANGE], df)) /\
  (forall start_date end_date,
     date_range = [start_date; end_date] -> end_date < start_date ->
     date_filter df date_range = ([], [])).
Proof.
  split.
  - intros H. destruct date_range as [|a [|b [|c l]]]; try reflexivity.
    now elim H.
  - intros start_date end_date -> H. unfold date_filter. f_equal.
    induction df as [|r df IH]; [reflexivity|]. simpl.
    destruct (Z.leb_spec start_date (fecha_date r)), (Z.leb_spec (fecha_date r) end_date);
      simpl; try exact IH. lia.
Qed.

Lemma date_filter_fallback_witness :
  date_filter scenario_df [19724] = ([SidebarWarning MSG_DATE_RANGE], scenario_df) /\
  date_filter scenario_df [19725; 19723] = ([], []).
Proof.
  split.
  - apply (proj1 (date_filter_fallback scenario_df [19724])). discriminate.
  - apply (proj2 (date_filter_fallback scenario_df [19725; 19723]) 19725 19723); [reflexivity | lia].
Defined.

(** C5 as claimed fails where the end lies before the start: the range
    from day 7 back to day 3 is applied, the view is empty and not the
    dataset, and no warning is shown. *)
Lemma date_filter_end_before_start :
  3 < 7 /\
  date_filter one_row_df [7; 3] = ([], []) /\
  date_filter one_row_df [7; 3] <> ([SidebarWarning MSG_DATE_RANGE], one_row_df).
Proof.
  split; [lia|]. split; [reflexivity | discriminate].
Qed.

(** ** KPIs *)

(** C3. The unit price is guarded: when the units of the view add up to
    0 the unit price is 0 and the division is not made, whatever the
    sales are; when they add up to a positive number the unit price is
    the total sales divided by the total units, and no error is raised
    either. *)
Theorem precio_unitario_guarded (v : DataFrame) :
  (unidades_totales v = 0 -> precio_unitario v = Ok 0%Q) /\
  (0 < unidades_totales v ->
   precio_unitario v = Ok (ventas_totales v / inject_Z (unidades_totales v))%Q).
Proof.
  unfold precio_unitario, truediv. split; intros H.
  - rewrite H. reflexivity.
  - destruct (Z.gtb_spec (unidades_totales v) 0); [|lia].
    destruct (Z.eqb_spec (unidades_totales v) 0); [lia | reflexivity].
Qed.

Lemma precio_unitario_guarded_witness :
  precio_unitario scenario_view_3 = Ok 0%Q /\
  precio_unitario scenario_view_12
  = Ok (ventas_totales scenario_view_12 / inject_Z (unidades_totales scenario_view_12))%Q.
Proof.
  split.
  - apply (proj1 (precio_unitario_guarded scenario_view_3)). vm_compute. reflexivity.
  - apply (proj2 (precio_unitario_guarded scenario_view_12)). vm_compute. reflexivity.
Defined.

(** The first two days of the small dataset: sales 300, units 30, unit
    price 10; the third day alone: units 0, unit price 0. *)
Lemma scenario_kpis :
  (ventas_totales scenario_view_12 == 300)%Q /\
  unidades_totales scenario_view_12 = 30 /\
  (exists q, precio_unitario scenario_view_12 = Ok q /\ (q == 10)%Q) /\
  unidades_totales scenario_view_3 = 0 /\
  precio_unitario scenario_view_3 = Ok 0%Q.
Proof.
  split; [reflexivity|]. split; [reflexivity|]. split; [|split; reflexivity].
  eexists. split; reflexivity.
Qed.

(** ** The loader *)

(** C6 as claimed fails: the caller of [load_data] gets [None] for a
    missing file and [None] for an empty one, so nothing computed from
    what it gets can tell the two apart. *)
Lemma load_failures_return_the_same :
  ~ exists kind_of : option DataFrame -> FailureKind,
      kind_of (snd (load_data RaisesFileNotFound)) = MissingSource /\
      kind_of (snd (load_data (Returns []))) = EmptySource.
Proof.
  intros [kind_of [H1 H2]]. cbn in H1, H2. congruence.
Qed.

(** C6, as the code has it.  A missing file, a file with no record and
    any other exception of the reader each show their own error message,
    three different texts, the last one ending in the text of the
    exception; the value handed back is [None] in all three, the script
    stops there, and a frame is handed back only when the reader gave a
    frame with records, and then it is that whole frame, regions
    normalized. *)
Theorem load_data_failures :
  load_data RaisesFileNotFound = ([StError MSG_NOT_FOUND], None) /\
  load_data (Returns []) = ([StError MSG_EMPTY], None) /\
  (forall e, load_data (RaisesOther e) = ([StError (MSG_LOAD_PREFIX ++ e)%string], None)) /\
  MSG_NOT_FOUND <> MSG_EMPTY /\
  (forall e, (MSG_LOAD_PREFIX ++ e)%string <> MSG_NOT_FOUND) /\
  (forall e, (MSG_LOAD_PREFIX ++ e)%string <> MSG_EMPTY) /\
  (forall csv, snd (load_data csv) = None ->
               exists text, startup csv = Stopped [StError text]) /\
  (forall csv df, snd (load_data csv) = Some df ->
                  exists raw, csv = Returns raw /\ raw <> [] /\
                              startup csv = Loaded [] df /\
                              df = map (fun r => set_Region (normalize_region (Region r)) r) raw).
Proof.
  repeat split; try reflexivity; try discriminate.
  - intros csv H. unfold startup.
    destruct csv as [|e|[|r raw]]; cbn in *; try discriminate; eauto.
  - intros csv df H. destruct csv as [|e|[|r raw]]; cbn in H; try discriminate.
    injection H as <-. exists (r :: raw). repeat split. discriminate.
Qed.

Lemma load_data_failures_witness :
  (exists text, startup (RaisesOther "No columns to parse from file") = Stopped [StError text]) /\
  (exists raw, Returns scenario_csv = Returns raw /\ raw <> [] /\
               startup (Returns scenario_csv) = Loaded [] scenario_df /\
               scenario_df = map (fun r => set_Region (normalize_region (Region r)) r) raw).
Proof.
  destruct load_data_failures as [_ [_ [_ [_ [_ [_ [Hstop Hload]]]]]]].
  split.
  - apply Hstop. reflexivity.
  - apply Hload. reflexivity.
Defined.

(** ** Ranking *)

Lemma Qle_bool_total (a b : Q) : Qle_bool a b = false -> Qle_bool b a = true.
Proof.
  intros H. apply Qle_bool_iff. destruct (Qlt_le_dec b a) as [L|L].
  - now apply Qlt_le_weak.
  - apply Qle_bool_iff in L. congruence.
Qed.

Lemma Qle_bool_trans (a b c : Q) :
  Qle_bool a b = true -> Qle_bool b c = true -> Qle_bool a c = true.
Proof. rewrite !Qle_bool_iff. apply Qle_trans. Qed.

Lemma StronglySorted_weaken {A : Type} (R R' : A -> A -> Prop) (l : list A) :
  (forall x y, R x y -> R' x y) -> StronglySorted R l -> StronglySorted R' l.
Proof.
  intros HR. induction 1 as [|x l Hl IH Hx]; constructor; [exact IH|].
  eapply Forall_impl; [|exact Hx]. intros y. apply HR.
Qed.

Lemma groupby_sum_length (key : Row -> string) (v : DataFrame) :
  List.length (groupby_sum key v) = List.length (unique (map key v)).
Proof.
  unfold groupby_sum, sorted. now rewrite length_map, stable_sort_length.
Qed.

Lemma groupby_sum_keys (key : Row -> string) (v : DataFrame) :
  NoDup (map fst (groupby_sum key v)).
Proof.
  unfold groupby_sum. rewrite map_map. cbn [fst]. rewrite map_id.
  apply sorted_NoDup, unique_NoDup.
Qed.

Lemma StronglySorted_app_order {A : Type} (R : A -> A -> Prop) (l1 l2 : list A) :
  StronglySorted R (l1 ++ l2) -> forall x y, In x l1 -> In y l2 -> R x y.
Proof.
  induction l1 as [|a l1 IH]; intros H x y Hx Hy; [destruct Hx|].
  cbn [app] in H. apply StronglySorted_inv in H. destruct H as [H1 H2].
  destruct Hx as [<-|Hx]; [|now apply IH].
  rewrite Forall_forall in H2. apply H2. apply in_or_app. now right.
Qed.

Lemma Qle_bool_false (a b : Q) : Qle_bool a b = false <-> (b < a)%Q.
Proof.
  split; intros H.
  - apply Qnot_le_lt. intros L. apply Qle_bool_iff in L. congruence.
  - destruct (Qle_bool a b) eqn:E; [|reflexivity].
    apply Qle_bool_iff in E. now apply Qlt_not_le in H.
Qed.

(** The order of [sort_values_desc]: by value, larger first, then by
    rank. *)
Section TieOrder.

Variable tie_rank : string * Q -> nat.

Lemma ranked_before_iff (x y : string * Q) :
  ranked_before tie_rank x y = true <->
  (snd y < snd x)%Q \/ ((snd y <= snd x)%Q /\ (tie_rank x <= tie_rank y)%nat).
Proof.
  unfold ranked_before.
  rewrite orb_true_iff, andb_true_iff, negb_true_iff, Qle_bool_false, Qle_bool_iff,
    Nat.leb_le.
  reflexivity.
Qed.

Lemma ranked_before_total (x y : string * Q) :
  ranked_before tie_rank x y = false -> ranked_before tie_rank y x = true.
Proof.
  intros H. apply ranked_before_iff.
  destruct (Qlt_le_dec (snd x) (snd y)) as [L|L]; [now left|].
  destruct (Qlt_le_dec (snd y) (snd x)) as [G|G].
  - assert (T : ranked_before tie_rank x y = true) by (apply ranked_before_iff; now left).
    congruence.
  - right. split; [exact G|].
    destruct (Nat.le_gt_cases (tie_rank y) (tie_rank x)) as [R|R]; [exact R|].
    assert (T : ranked_before tie_rank x y = true)
      by (apply ranked_before_iff; right; split; [exact L | lia]).
    congruence.
Qed.

Lemma ranked_before_trans (x y z : string * Q) :
  ranked_before tie_rank x y = true -> ranked_before tie_rank y z = true ->
  ranked_before tie_rank x z = true.
Proof.
  rewrite !ranked_before_iff. intros [A|[A1 A2]] [B|[B1 B2]].
  - left. eapply Qlt_trans; eassumption.
  - left. eapply Qle_lt_trans; eassumption.
  - left. eapply Qlt_le_trans; eassumption.
  - right. split; [eapply Qle_trans; eassumption | lia].
Qed.

Lemma sort_values_desc_sorted (g : list (string * Q)) :
  StronglySorted (fun x y => (snd y <= snd x)%Q) (sort_values_desc tie_rank g).
Proof.
  apply (StronglySorted_weaken (fun x y => ranked_before tie_rank x y = true)).
  - intros x y H. apply ranked_before_iff in H.
    destruct H as [H|[H _]]; [now apply Qlt_le_weak | exact H].
  - apply stable_sort_StronglySorted; [apply ranked_before_total | apply ranked_before_trans].
Qed.

End TieOrder.

Lemma stable_desc_sorted (g : list (string * Q)) :
  StronglySorted (fun x y => (snd y <= snd x)%Q)
                 (stable_sort (fun x y => Qle_bool (snd y) (snd x)) g).
Proof.
  apply (StronglySorted_weaken (fun x y => Qle_bool (snd y) (snd x) = true)).
  - intros x y H. now apply Qle_bool_iff.
  - apply stable_sort_StronglySorted; intros.
    + now apply Qle_bool_total.
    + eapply Qle_bool_trans; eassumption.
Qed.

(** On either path [nlargest] is the head of a descending arrangement
    of all entries. *)
Lemma nlargest_head (tie_rank : string * Q -> nat) (n : nat) (g : list (string * Q)) :
  exists s, nlargest tie_rank n g = firstn n s /\ Permutation s g /\
            StronglySorted (fun x y => (snd y <= snd x)%Q) s.
Proof.
  unfold nlargest. destruct (List.length g <=? n)%nat.
  - exists (sort_values_desc tie_rank g). split; [reflexivity|].
    split; [apply stable_sort_perm | apply sort_values_desc_sorted].
  - exists (stable_sort (fun x y => Qle_bool (snd y) (snd x)) g). split; [reflexivity|].
    split; [apply stable_sort_perm | apply stable_desc_sorted].
Qed.

Lemma nlargest_length (tie_rank : string * Q -> nat) (n : nat) (g : list (string * Q)) :
  List.length (nlargest tie_rank n g) = Nat.min n (List.length g).
Proof.
  destruct (nlargest_head tie_rank n g) as [s [-> [P _]]].
  now rewrite length_firstn, (Permutation_length P).
Qed.

(** C7 as claimed fails on ties when there are no more entries than
    [n], as in every top ten of at most ten groups: the entries are
    sorted by numpy's unstable sort, and when it leaves equal values
    last first the sums A 0, B 0, C 1, D 1 come out as D, C, B, A, the
    entries of value 1 not in the order of the input. *)
Lemma nlargest_ties_not_stable :
  nlargest last_first 10 tied_groups = [("D", 1%Q); ("C", 1%Q); ("B", 0%Q); ("A", 0%Q)] /\
  tied_at 1 tied_groups = [("C", 1%Q); ("D", 1%Q)] /\
  ~ exists rest, tied_at 1 tied_groups = tied_at 1 (nlargest last_first 10 tied_groups) ++ rest.
Proof.
  split; [reflexivity|]. split; [reflexivity|].
  intros [rest H]. vm_compute in H. discriminate H.
Qed.

(** C7, as the code has it.  Whatever the grouped sums, [n] and the
    order numpy leaves equal values in, [nlargest] gives min(n, number
    of entries) entries, in descending order of value; together with
    some rest they make up the entries of the input, and no entry of the
    rest has a larger value than one it gives.  When [n] is smaller than
    the number of entries, entries of one value are the first ones of
    the input, in the order of the input; otherwise their order is
    numpy's.  The grouped sums of the script have one entry per distinct
    key, so its two top tens have min(10, number of distinct keys)
    entries. *)
Theorem nlargest_shape (tie_rank : string * Q -> nat) (g : list (string * Q)) (n : nat)
    (view : DataFrame) :
  List.length (nlargest tie_rank n g) = Nat.min n (List.length g) /\
  StronglySorted (fun x y => (snd y <= snd x)%Q) (nlargest tie_rank n g) /\
  (exists rest,
     Permutation (nlargest tie_rank n g ++ rest) g /\
     forall x y, In x (nlargest tie_rank n g) -> In y rest -> (snd y <= snd x)%Q) /\
  ((n < List.length g)%nat ->
   forall v, exists rest, tied_at v g = tied_at v (nlargest tie_rank n g) ++ rest) /\
  NoDup (map fst (groupby_sum Producto view)) /\
  NoDup (map fst (groupby_sum Vendedor view)) /\
  List.length (top_productos tie_rank view)
  = Nat.min 10 (List.length (unique (map Producto view))) /\
  List.length (top_vendedores tie_rank view)
  = Nat.min 10 (List.length (unique (map Vendedor view))).
Proof.
  split; [apply nlargest_length|].
  destruct (nlargest_head tie_rank n g) as [s [E [P S]]].
  split; [rewrite E; now apply StronglySorted_firstn|].
  split.
  { exists (skipn n s). rewrite E, firstn_skipn. split; [exact P|].
    apply (StronglySorted_app_order (fun x y => (snd y <= snd x)%Q)).
    now rewrite firstn_skipn. }
  split.
  { intros L v. unfold nlargest.
    destruct (Nat.leb_spec (List.length g) n) as [L'|_]; [lia|].
    unfold tied_at.
    rewrite <- (stable_sort_tied (fun x y => Qle_bool (snd y) (snd x))
                  (fun x => Qeq_bool (snd x) v)) with (l := g).
    - apply filter_firstn_prefix.
    - intros x y Hx Hy. apply Qle_bool_iff.
      apply Qeq_bool_iff in Hx, Hy. rewrite Hx, Hy. apply Qle_refl. }
  split; [apply groupby_sum_keys|]. split; [apply groupby_sum_keys|].
  unfold top_productos, top_vendedores. now rewrite !nlargest_length, !groupby_sum_length.
Qed.

Lemma nlargest_shape_witness :
  (3 < List.length tied_groups)%nat /\
  exists rest,
    tied_at 1 tied_groups = tied_at 1 (nlargest last_first 3 tied_groups) ++ rest.
Proof.
  assert (L : (3 < List.length tied_groups)%nat) by (cbn; lia).
  split; [exact L|].
  apply (proj1 (proj2 (proj2 (proj2 (nlargest_shape last_first tied_groups 3 [])))) L).
Defined.

(** ** Text normalization *)

Module Utf8Facts.
Import Utf8.

Lemma byte_chr (z : Z) : 0 <= z < 256 -> byte (chr z) = z.
Proof.
  intros H. unfold byte, chr. rewrite N_ascii_embedding; [apply Z2N.id; lia|].
  apply N2Z.inj_lt. rewrite Z2N.id; lia.
Qed.

Ltac bytes :=
  repeat (rewrite byte_chr by (Z.div_mod_to_equations; lia));
  repeat match goal with
    | |- context [if ?a <? ?b then _ else _] =>
        destruct (Z.ltb_spec a b); [try (exfalso; Z.div_mod_to_equations; lia)|try (exfalso; Z.div_mod_to_equations; lia)]
    end.

Lemma decode_encode_char (c : Z) (rest : string) :
  valid c = true -> decode (encode_char c rest) = c :: decode rest.
Proof.
  unfold valid. rewrite andb_true_iff, Z.leb_le, Z.ltb_lt. intros [H0 H1].
  unfold encode_char.
  destruct (Z.ltb_spec c 128); [|destruct (Z.ltb_spec c 2048); [|destruct (Z.ltb_spec c 65536)]];
    cbn [decode]; bytes; f_equal; Z.div_mod_to_equations; lia.
Qed.

Lemma decode_encode (l : list Z) : forallb valid l = true -> decode (encode l) = l.
Proof.
  induction l as [|c l IH]; [reflexivity|]. cbn [forallb encode].
  rewrite andb_true_iff. intros [Hc Hl]. rewrite decode_encode_char by exact Hc.
  now rewrite IH.
Qed.

End Utf8Facts.

Module TextFacts.
Import Text.

Lemma in_table_In (c : Z) : in_table c = true -> In c table.
Proof.
  unfold in_table, between, table. rewrite !orb_true_iff, andb_true_iff, !Z.eqb_eq, !Z.leb_le.
  intros H. apply in_or_app.
  destruct H as [[[[[[H1 H2] | ->] | ->] | ->] | ->] | ->]; try (right; cbn; tauto).
  left. apply in_map_iff. exists (Z.to_nat c). split; [lia|]. apply in_seq. lia.
Qed.

Lemma simple_in_table (c : Z) : simple c = true -> in_table c = true.
Proof.
  unfold simple. destruct (to_title c) as [|t [|? ?]]; try discriminate.
  destruct (to_lower c) as [|l [|? ?]]; try discriminate.
  rewrite !andb_true_iff. tauto.
Qed.

Lemma case_pairs : forallb (fun c => implb (simple c) (case_pair c)) table = true.
Proof. vm_compute. reflexivity. Qed.

Lemma simple_case_pair (c : Z) : simple c = true -> case_pair c = true.
Proof.
  intros H. pose proof case_pairs as T. rewrite forallb_forall in T.
  specialize (T c (in_table_In c (simple_in_table c H))). now rewrite H in T.
Qed.

Lemma is1_eq (x : list Z) (v : Z) : is1 x v = true -> x = [v].
Proof.
  destruct x as [|y [|? ?]]; try discriminate. cbn. intros H. apply Z.eqb_eq in H. now subst.
Qed.

(** The facts of a simple character, one by one. *)
Section Simple.

Variable c : Z.
Hypothesis Hc : simple c = true.

Lemma case_pair_parts :
  to_title c = [title1 c] /\ to_lower c = [lower1 c] /\
  simple (title1 c) = true /\ simple (lower1 c) = true /\
  title1 (title1 c) = title1 c /\ lower1 (title1 c) = lower1 c /\
  title1 (lower1 c) = title1 c /\ lower1 (lower1 c) = lower1 c /\
  is_cased (title1 c) = is_cased c /\ is_cased (lower1 c) = is_cased c /\
  is_space (title1 c) = is_space c /\ is_space (lower1 c) = is_space c /\
  (is_space c = true -> is_cased c = false /\ title1 c = c /\ lower1 c = c) /\
  Utf8.valid c = true.
Proof.
  pose proof (simple_case_pair c Hc) as P. unfold case_pair in P. cbn zeta in P.
  rewrite !andb_true_iff in P.
  destruct P as [[[[[[[[[[[[[P1 P2] P3] P4] P5] P6] P7] P8] P9] P10] P11] P12] P13] P14].
  apply is1_eq in P1, P2. apply Z.eqb_eq in P5, P6, P7, P8.
  apply Bool.eqb_prop in P9, P10, P11, P12.
  assert (S : is_space c = true -> is_cased c = false /\ title1 c = c /\ lower1 c = c).
  { intros S. rewrite S in P13. cbn [negb orb] in P13.
    rewrite !andb_true_iff in P13. destruct P13 as [[N E1] E2].
    apply Z.eqb_eq in E1, E2. destruct (is_cased c); [discriminate N | auto]. }
  repeat split; auto; apply S; assumption.
Qed.

Lemma to_title_simple : to_title c = [title1 c].
Proof. apply case_pair_parts. Qed.

Lemma to_lower_simple : to_lower c = [lower1 c].
Proof. apply case_pair_parts. Qed.

Lemma titled_simple (p : bool) : titled p c = [if p then lower1 c else title1 c].
Proof. unfold titled. destruct p; [apply to_lower_simple | apply to_title_simple]. Qed.

Lemma simple_form (p : bool) : simple (if p then lower1 c else title1 c) = true.
Proof. destruct p; apply case_pair_parts. Qed.

Lemma is_cased_form (p : bool) : is_cased (if p then lower1 c else title1 c) = is_cased c.
Proof. destruct p; apply case_pair_parts. Qed.

Lemma is_space_form (p : bool) : is_space (if p then lower1 c else title1 c) = is_space c.
Proof. destruct p; apply case_pair_parts. Qed.

Lemma form_of_form (p : bool) :
  (if p then lower1 (if p then lower1 c else title1 c)
   else title1 (if p then lower1 c else title1 c))
  = (if p then lower1 c else title1 c).
Proof. destruct p; apply case_pair_parts. Qed.


Lemma lower_of_form (p : bool) : lower1 (if p then lower1 c else title1 c) = lower1 c.
Proof. destruct p; apply case_pair_parts. Qed.

Lemma space_form (p : bool) : is_space c = true -> (if p then lower1 c else title1 c) = c.
Proof. intros H. destruct p; now apply case_pair_parts. Qed.

Lemma space_uncased : is_space c = true -> is_cased c = false.
Proof. intros H. now apply case_pair_parts. Qed.

Lemma simple_valid : Utf8.valid c = true.
Proof. apply case_pair_parts. Qed.

End Simple.

Ltac head_simple H c Hc Hs :=
  cbn [simple_text forallb] in H; apply andb_prop in H; destruct H as [Hc Hs].

Lemma simple_text_valid (s : list Z) : simple_text s = true -> forallb Utf8.valid s = true.
Proof.
  unfold simple_text. rewrite !forallb_forall. intros H c Hc. apply simple_valid. now apply H.
Qed.

Lemma title_from_simple (p : bool) (s : list Z) :
  simple_text s = true -> simple_text (title_from p s) = true.
Proof.
  revert p. induction s as [|c s IH]; intros p H; [reflexivity|].
  head_simple H c Hc Hs. cbn [title_from]. rewrite (titled_simple c Hc).
  cbn [app simple_text forallb]. rewrite (simple_form c Hc). now apply IH.
Qed.

Lemma lower_simple (s : list Z) : simple_text s = true -> simple_text (lower s) = true.
Proof.
  induction s as [|c s IH]; intros H; [reflexivity|].
  head_simple H c Hc Hs. unfold lower. cbn [flat_map]. rewrite (to_lower_simple c Hc).
  cbn [app simple_text forallb]. rewrite (simple_form c Hc true). now apply IH.
Qed.

Lemma lstrip_simple (s : list Z) : simple_text s = true -> simple_text (lstrip s) = true.
Proof.
  induction s as [|c s IH]; intros H; [reflexivity|]. cbn [lstrip].
  destruct (is_space c); [|exact H]. head_simple H c Hc Hs. now apply IH.
Qed.

Lemma rstrip_simple (s : list Z) : simple_text s = true -> simple_text (rstrip s) = true.
Proof.
  induction s as [|c s IH]; intros H; [reflexivity|]. head_simple H c Hc Hs.
  cbn [rstrip]. specialize (IH Hs). destruct (rstrip s) as [|c' r].
  - destruct (is_space c); [reflexivity|]. cbn. now rewrite Hc.
  - cbn [simple_text forallb] in *. now rewrite Hc.
Qed.

Lemma strip_simple (s : list Z) : simple_text s = true -> simple_text (strip s) = true.
Proof. intros H. apply rstrip_simple, lstrip_simple, H. Qed.


Lemma title_from_idem (p : bool) (s : list Z) :
  simple_text s = true -> title_from p (title_from p s) = title_from p s.
Proof.
  revert p. induction s as [|c s IH]; intros p H; [reflexivity|]. head_simple H c Hc Hs.
  cbn [title_from]. rewrite (titled_simple c Hc). cbn [app title_from].
  rewrite (titled_simple _ (simple_form c Hc p)). cbn [app].
  rewrite (form_of_form c Hc), (is_cased_form c Hc). f_equal. now apply IH.
Qed.

Lemma lower_title_from (p : bool) (s : list Z) :
  simple_text s = true -> lower (title_from p s) = lower s.
Proof.
  revert p. induction s as [|c s IH]; intros p H; [reflexivity|]. head_simple H c Hc Hs.
  cbn [title_from]. rewrite (titled_simple c Hc). unfold lower in *. cbn [app flat_map].
  rewrite (to_lower_simple _ (simple_form c Hc p)), (to_lower_simple c Hc).
  rewrite (lower_of_form c Hc). cbn [app]. f_equal. now apply IH.
Qed.

Lemma lstrip_title (s : list Z) : simple_text s = true -> lstrip (title s) = title (lstrip s).
Proof.
  unfold title. induction s as [|c s IH]; intros H; [reflexivity|]. head_simple H c Hc Hs.
  cbn [title_from lstrip]. rewrite (titled_simple c Hc). cbn [app lstrip].
  rewrite (is_space_form c Hc false).
  destruct (is_space c) eqn:E.
  - rewrite (space_uncased c Hc E). now apply IH.
  - cbn [title_from]. now rewrite (titled_simple c Hc).
Qed.

Lemma rstrip_title_from (p : bool) (s : list Z) :
  simple_text s = true -> rstrip (title_from p s) = title_from p (rstrip s).
Proof.
  revert p. induction s as [|c s IH]; intros p H; [reflexivity|]. head_simple H c Hc Hs.
  cbn [title_from rstrip]. rewrite (titled_simple c Hc). cbn [app rstrip].
  rewrite (IH _ Hs), (is_space_form c Hc).
  pose proof (rstrip_simple s Hs) as R.
  destruct (rstrip s) as [|c' r]; cbn [title_from].
  - destruct (is_space c); [reflexivity|]. cbn [title_from]. now rewrite (titled_simple c Hc).
  - head_simple R c' Hc' Hr. rewrite (titled_simple c Hc), (titled_simple c' Hc'). reflexivity.
Qed.

Lemma strip_title (s : list Z) : simple_text s = true -> strip (title s) = title (strip s).
Proof.
  intros H. unfold strip. rewrite (lstrip_title s H).
  apply rstrip_title_from, lstrip_simple, H.
Qed.

Lemma lstrip_lower (s : list Z) : simple_text s = true -> lstrip (lower s) = lower (lstrip s).
Proof.
  induction s as [|c s IH]; intros H; [reflexivity|]. head_simple H c Hc Hs.
  unfold lower in *. cbn [flat_map lstrip]. rewrite (to_lower_simple c Hc). cbn [app lstrip].
  rewrite (is_space_form c Hc true). destruct (is_space c); [now apply IH|].
  cbn [flat_map]. now rewrite (to_lower_simple c Hc).
Qed.

Lemma rstrip_lower (s : list Z) : simple_text s = true -> rstrip (lower s) = lower (rstrip s).
Proof.
  induction s as [|c s IH]; intros H; [reflexivity|]. head_simple H c Hc Hs.
  unfold lower in *. cbn [flat_map rstrip]. rewrite (to_lower_simple c Hc). cbn [app rstrip].
  rewrite (IH Hs), (is_space_form c Hc true).
  pose proof (rstrip_simple s Hs) as R.
  destruct (rstrip s) as [|c' r]; cbn [flat_map].
  - destruct (is_space c); [reflexivity|]. cbn [flat_map]. now rewrite (to_lower_simple c Hc).
  - head_simple R c' Hc' Hr. rewrite (to_lower_simple c Hc), (to_lower_simple c' Hc'). reflexivity.
Qed.

Lemma strip_lower (s : list Z) : simple_text s = true -> strip (lower s) = lower (strip s).
Proof.
  intros H. unfold strip. rewrite (lstrip_lower s H). apply rstrip_lower, lstrip_simple, H.
Qed.

Lemma lstrip_left_clean (s : list Z) : left_clean (lstrip s).
Proof.
  induction s as [|c s IH]; [exact I|].
  cbn [lstrip]. destruct (is_space c) eqn:E; [exact IH | exact E].
Qed.

Lemma lstrip_of_left_clean (s : list Z) : left_clean s -> lstrip s = s.
Proof. destruct s as [|c s]; [reflexivity|]. cbn. now intros ->. Qed.

Lemma rstrip_left_clean (s : list Z) : left_clean s -> left_clean (rstrip s).
Proof.
  destruct s as [|c s]; [intros; exact I|]. cbn [left_clean rstrip]. intros H.
  destruct (rstrip s); [rewrite H|]; exact H.
Qed.

Lemma rstrip_cons (c : Z) (s : list Z) :
  rstrip (c :: s)
  = match rstrip s with
    | [] => if is_space c then [] else [c]
    | r => c :: r
    end.
Proof. reflexivity. Qed.

Lemma rstrip_idem (s : list Z) : rstrip (rstrip s) = rstrip s.
Proof.
  induction s as [|c s IH]; [reflexivity|].
  rewrite rstrip_cons. destruct (rstrip s) as [|c' r] eqn:E.
  - destruct (is_space c) eqn:Ec; [reflexivity|]. cbn [rstrip]. now rewrite Ec.
  - rewrite rstrip_cons, IH. reflexivity.
Qed.

Lemma strip_idem (s : list Z) : strip (strip s) = strip s.
Proof.
  unfold strip.
  rewrite (lstrip_of_left_clean (rstrip (lstrip s))).
  - apply rstrip_idem.
  - apply rstrip_left_clean, lstrip_left_clean.
Qed.

Lemma title_strip_simple (s : list Z) : simple_text s = true -> simple_text (title_strip s) = true.
Proof. intros H. apply strip_simple, title_from_simple, H. Qed.

Lemma title_strip_idem (s : list Z) : simple_text s = true -> title_strip (title_strip s) = title_strip s.
Proof.
  intros H. unfold title_strip.
  rewrite (strip_title (strip (title s))) by (apply strip_simple, title_from_simple, H).
  rewrite strip_idem, (strip_title s H). unfold title.
  now rewrite title_from_idem by (apply strip_simple, H).
Qed.

Lemma title_strip_keeps (s : list Z) :
  simple_text s = true -> strip (lower (title_strip s)) = strip (lower s).
Proof.
  intros H. unfold title_strip.
  rewrite <- (strip_lower (title s)) by (apply title_from_simple, H).
  rewrite strip_idem. unfold title. now rewrite lower_title_from.
Qed.


End TextFacts.

Lemma simple_string_parts (v : string) :
  simple_string v = true ->
  Text.simple_text (Utf8.decode v) = true /\ v = Utf8.encode (Utf8.decode v).
Proof.
  unfold simple_string. rewrite andb_true_iff, String.eqb_eq. intros [H E]. auto.
Qed.

Lemma decode_normalize_region (v : string) :
  simple_string v = true ->
  Utf8.decode (normalize_region v) = Text.title_strip (Utf8.decode v).
Proof.
  intros H. destruct (simple_string_parts v H) as [S _]. unfold normalize_region.
  apply Utf8Facts.decode_encode, TextFacts.simple_text_valid, TextFacts.title_strip_simple, S.
Qed.


Lemma normalize_region_idem (v : string) :
  simple_string v = true -> normalize_region (normalize_region v) = normalize_region v.
Proof.
  intros H. destruct (simple_string_parts v H) as [S _].
  unfold normalize_region at 1. rewrite (decode_normalize_region v H).
  now rewrite (TextFacts.title_strip_idem _ S).
Qed.

Lemma normalize_region_keeps (v : string) :
  simple_string v = true -> same_modulo_case_ws (normalize_region v) v.
Proof.
  intros H. destruct (simple_string_parts v H) as [S _].
  unfold same_modulo_case_ws. rewrite (decode_normalize_region v H).
  now apply TextFacts.title_strip_keeps.
Qed.



Lemma loaded_frame (raw df : DataFrame) :
  snd (load_data (Returns raw)) = Some df ->
  df = map (fun r => set_Region (normalize_region (Region r)) r) raw.
Proof.
  destruct raw as [|r0 raw]; [discriminate|]. cbn [load_data snd]. now intros [= <-].
Qed.

Lemma loaded_regions (raw df : DataFrame) (r : Row) :
  snd (load_data (Returns raw)) = Some df -> In r df ->
  exists r0, In r0 raw /\ Region r = normalize_region (Region r0).
Proof.
  intros H Hr. rewrite (loaded_frame raw df H) in Hr. apply in_map_iff in Hr.
  destruct Hr as [r0 [<- H0]]. now exists r0.
Qed.




(** Regions with accents, as the code gives them. *)
Lemma normalize_region_accents :
  map normalize_region ["medellín"; "ñuñoa"; " BogotÁ "; "SAN JOSÉ"; "straße"]
  = ["Medellín"; "Ñuñoa"; "Bogotá"; "San José"; "Straße"] /\
  forallb simple_string ["medellín"; "ñuñoa"; " BogotÁ "; "SAN JOSÉ"] = true /\
  simple_string "straße" = false.
Proof. repeat split; vm_compute; reflexivity. Qed.

(** ** The calendar *)

Module CalendarFacts.
Import Calendar.

Ltac split_ltb :=
  repeat match goal with
    | |- context [if ?a <? ?b then _ else _] => destruct (Z.ltb_spec a b)
    | |- context [if ?a <=? ?b then _ else _] => destruct (Z.leb_spec a b)
    end.

Ltac months m :=
  match goal with
  | H : 1 <= m <= 12 |- _ =>
      let C := fresh "C" in
      assert (m = 1 \/ m = 2 \/ m = 3 \/ m = 4 \/ m = 5 \/ m = 6 \/ m = 7 \/ m = 8 \/
              m = 9 \/ m = 10 \/ m = 11 \/ m = 12) as C by lia;
      clear H;
      repeat (destruct C as [C|C]; [subst m|]); [..|subst m]
  end.

Lemma leap_day_range (y : Z) : 0 <= leap_day y <= 1.
Proof. unfold leap_day. destruct (is_leap y); lia. Qed.

Lemma days_before_year_succ (y : Z) :
  days_before_year (y + 1) = days_before_year y + 365 + leap_day y.
Proof.
  unfold days_before_year, leap_day, is_leap.
  replace (y + 1 - 1) with y by ring.
  destruct (Z.eqb_spec (y mod 4) 0), (Z.eqb_spec (y mod 100) 0), (Z.eqb_spec (y mod 400) 0);
    cbn [andb orb negb]; Z.div_mod_to_equations; lia.
Qed.

Lemma days_before_year_mono (y y' : Z) : y <= y' -> days_before_year y <= days_before_year y'.
Proof.
  intros H. replace y' with (y + (y' - y)) by ring.
  assert (N : 0 <= y' - y) by lia. revert N.
  generalize (y' - y). apply natlike_ind; [now rewrite Z.add_0_r|].
  intros n Hn IH. replace (y + Z.succ n) with (y + n + 1) by lia.
  rewrite days_before_year_succ. pose proof (leap_day_range (y + n)). lia.
Qed.

(** The year of a day is the one whose days hold it. *)
Lemma year_bracket (z : Z) :
  days_before_year (year z) <= z < days_before_year (year z + 1).
Proof.
  unfold year. cbn zeta.
  destruct (Z.ltb_spec z (days_before_year (1970 + 400 * z / 146097))).
  - replace (1970 + 400 * z / 146097 - 1 + 1) with (1970 + 400 * z / 146097) by ring.
    split; [|lia]. unfold days_before_year in *. Z.div_mod_to_equations. lia.
  - destruct (Z.leb_spec (days_before_year (1970 + 400 * z / 146097 + 1)) z).
    + split; [lia|]. unfold days_before_year in *. Z.div_mod_to_equations. lia.
    + lia.
Qed.

Lemma year_unique (z y : Z) :
  days_before_year y <= z < days_before_year (y + 1) -> year z = y.
Proof.
  intros H. pose proof (year_bracket z) as B.
  destruct (Z.lt_trichotomy (year z) y) as [L|[E|L]]; [|exact E|].
  - pose proof (days_before_year_mono (year z + 1) y). lia.
  - pose proof (days_before_year_mono (y + 1) (year z)). lia.
Qed.

(** The day within its year, counted from 0. *)
Lemma yday_range (z : Z) : 0 <= z - days_before_year (year z) < 365 + leap_day (year z).
Proof.
  pose proof (year_bracket z) as B. rewrite days_before_year_succ in B. lia.
Qed.

Lemma month_range (z : Z) : 1 <= month z <= 12.
Proof. unfold month, month_of_yday. split_ltb; lia. Qed.

Lemma day_range (z : Z) : 1 <= day z <= days_in_month (year z) (month z).
Proof.
  unfold day, month. pose proof (yday_range z) as R. pose proof (leap_day_range (year z)) as L.
  set (l := leap_day (year z)) in *. set (n := z - days_before_year (year z)) in *.
  unfold month_of_yday. split_ltb; unfold days_before_month, days_in_month; fold l; lia.
Qed.

Lemma days_from_civil_of_day (z : Z) : days_from_civil (year z) (month z) (day z) = z.
Proof. unfold days_from_civil, day. ring. Qed.

Lemma days_before_month_succ (y m : Z) :
  1 <= m <= 11 -> days_before_month y (m + 1) = days_before_month y m + days_in_month y m.
Proof.
  intros H. assert (H' : 1 <= m <= 12) by lia.
  months m;
    match goal with
    | |- context [days_before_month y (?a + 1)] =>
        let v := eval compute in (a + 1) in change (a + 1) with v
    end;
    cbn [days_before_month days_in_month]; lia.
Qed.

Lemma days_before_month_december (y : Z) : days_before_month y 12 + 31 = 365 + leap_day y.
Proof. cbn [days_before_month]. lia. Qed.

Lemma days_before_month_mono (y m m' : Z) :
  1 <= m <= 12 -> 1 <= m' <= 12 -> m <= m' ->
  days_before_month y m + days_in_month y m <= days_before_month y m' + days_in_month y m'.
Proof.
  intros H H' L. pose proof (leap_day_range y).
  months m; months m'; try lia; cbn [days_before_month days_in_month]; lia.
Qed.

(** A date within the days of its month is the date of its day number. *)
Lemma civil_of_days_from_civil (y m d : Z) :
  1 <= m <= 12 -> 1 <= d <= days_in_month y m ->
  year (days_from_civil y m d) = y /\
  month (days_from_civil y m d) = m /\
  day (days_from_civil y m d) = d.
Proof.
  intros Hm Hd. pose proof (leap_day_range y) as L.
  assert (Y : year (days_from_civil y m d) = y).
  { apply year_unique. rewrite days_before_year_succ. unfold days_from_civil.
    revert Hd. months m; cbn [days_before_month days_in_month]; lia. }
  assert (M : month (days_from_civil y m d) = m).
  { unfold month. rewrite Y. unfold days_from_civil.
    replace (days_before_year y + days_before_month y m + d - 1 - days_before_year y)
      with (days_before_month y m + d - 1) by ring.
    revert Hd. unfold month_of_yday.
    months m; cbn [days_before_month days_in_month]; intros Hd; split_ltb; lia. }
  split; [exact Y|]. split; [exact M|].
  unfold day. rewrite Y, M. unfold days_from_civil. ring.
Qed.

(** The date of the next day, within the year. *)
Lemma civil_succ (z : Z) :
  (day z < days_in_month (year z) (month z) ->
   year (z + 1) = year z /\ month (z + 1) = month z) /\
  (day z = days_in_month (year z) (month z) -> month z < 12 ->
   year (z + 1) = year z /\ month (z + 1) = month z + 1).
Proof.
  pose proof (month_range z) as Hm. pose proof (day_range z) as Hd.
  pose proof (days_from_civil_of_day z) as E. split.
  - intros H.
    assert (S : z + 1 = days_from_civil (year z) (month z) (day z + 1))
      by (unfold days_from_civil in *; lia).
    rewrite S.
    destruct (civil_of_days_from_civil (year z) (month z) (day z + 1)) as [Y [M _]];
      auto; lia.
  - intros H L.
    assert (S : z + 1 = days_from_civil (year z) (month z + 1) 1).
    { unfold days_from_civil in *. rewrite days_before_month_succ by lia. lia. }
    rewrite S.
    destruct (civil_of_days_from_civil (year z) (month z + 1) 1) as [Y [M _]]; auto; try lia.
    assert (28 <= days_in_month (year z) (month z + 1)); [|lia].
    pose proof (leap_day_range (year z)).
    assert (H' : 1 <= month z + 1 <= 12) by lia. revert H'.
    generalize (month z + 1). intros m H'. months m; cbn [days_in_month]; lia.
Qed.

Lemma quarter_last_month_facts (m : Z) :
  1 <= m <= 12 ->
  m <= quarter_last_month m <= 12 /\
  quarter_last_month m mod 3 = 0 /\
  (quarter_last_month m - 1) / 3 = (m - 1) / 3.
Proof. intros H. months m; vm_compute; repeat split; discriminate. Qed.

Lemma quarter_last_month_succ (m : Z) :
  1 <= m <= 12 -> m <> quarter_last_month m ->
  quarter_last_month (m + 1) = quarter_last_month m.
Proof. intros H. months m; vm_compute; congruence. Qed.

Lemma quarter_last_month_unique (m m' : Z) :
  (m' - 1) / 3 = (m - 1) / 3 -> m' mod 3 = 0 -> m' = quarter_last_month m.
Proof. unfold quarter_last_month. intros H1 H2. Z.div_mod_to_equations. lia. Qed.

Lemma days_in_month_positive (y m : Z) : 1 <= days_in_month y m.
Proof.
  pose proof (leap_day_range y). unfold days_in_month.
  destruct m as [|p|p]; try lia.
  do 4 (destruct p as [p|p|]; try lia).
Qed.

(** The label of a bin is the last day of the period its days lie in. *)
Lemma bin_label_ge (f : Freq) (d : Z) : d <= bin_label f d.
Proof.
  pose proof (month_range d) as Hm. pose proof (day_range d) as Hd.
  pose proof (days_from_civil_of_day d) as E.
  destruct f; cbn [bin_label].
  - lia.
  - unfold weekday. Z.div_mod_to_equations. lia.
  - unfold days_from_civil in *. lia.
  - destruct (quarter_last_month_facts (month d) Hm) as [Q _].
    pose proof (days_before_month_mono (year d) (month d) (quarter_last_month (month d))).
    unfold days_from_civil in *. lia.
  - pose proof (days_before_month_mono (year d) (month d) 12).
    unfold days_from_civil in *. cbn [days_in_month] in *. lia.
Qed.

Lemma bin_label_step (f : Freq) (d : Z) :
  bin_label f d = d \/ bin_label f (d + 1) = bin_label f d.
Proof.
  pose proof (month_range d) as Hm. pose proof (day_range d) as Hd.
  pose proof (days_from_civil_of_day d) as E.
  destruct (civil_succ d) as [Same Next].
  destruct f; cbn [bin_label].
  - now left.
  - unfold weekday. Z.div_mod_to_equations. lia.
  - destruct (Z.eq_dec (day d) (days_in_month (year d) (month d))) as [L|L].
    + left. now rewrite <- L.
    + right. destruct Same as [-> ->]; [lia | reflexivity].
  - destruct (Z.eq_dec (day d) (days_in_month (year d) (month d))) as [L|L].
    + destruct (Z.eq_dec (month d) (quarter_last_month (month d))) as [Q|Q].
      * left. now rewrite <- Q, <- L.
      * right. destruct (quarter_last_month_facts (month d) Hm) as [B _].
        destruct Next as [-> ->]; [exact L | lia |].
        now rewrite quarter_last_month_succ.
    + right. destruct Same as [-> ->]; [lia | reflexivity].
  - destruct (Z.eq_dec (day d) (days_in_month (year d) (month d))) as [L|L].
    + destruct (Z.eq_dec (month d) 12) as [Q|Q].
      * left. rewrite Q in L. cbn [days_in_month] in L. now rewrite <- Q, <- L.
      * right. destruct Next as [-> _]; [exact L | lia | reflexivity].
    + right. destruct Same as [-> _]; [lia | reflexivity].
Qed.

Lemma bin_label_in_period (f : Freq) (d : Z) : in_period f d (bin_label f d) = true.
Proof.
  pose proof (month_range d) as Hm. pose proof (bin_label_ge f d) as G.
  destruct f; cbn [bin_label in_period] in *.
  - apply Z.eqb_refl.
  - rewrite !andb_true_iff, Z.eqb_eq, !Z.leb_le. unfold weekday in *.
    Z.div_mod_to_equations. lia.
  - destruct (civil_of_days_from_civil (year d) (month d)
                (days_in_month (year d) (month d))) as [-> [-> ->]];
      [exact Hm | pose proof (days_in_month_positive (year d) (month d)); lia |].
    now rewrite !Z.eqb_refl.
  - destruct (quarter_last_month_facts (month d) Hm) as [B [M Q]].
    destruct (civil_of_days_from_civil (year d) (quarter_last_month (month d))
                (days_in_month (year d) (quarter_last_month (month d)))) as [-> [-> ->]];
      [lia | pose proof (days_in_month_positive (year d) (quarter_last_month (month d))); lia |].
    now rewrite M, Q, !Z.eqb_refl.
  - destruct (civil_of_days_from_civil (year d) 12 31) as [-> [-> ->]];
      [lia | cbn [days_in_month]; lia |].
    now rewrite !Z.eqb_refl.
Qed.

Lemma in_period_label (f : Freq) (d e : Z) : in_period f d e = true -> bin_label f d = e.
Proof.
  pose proof (days_from_civil_of_day e) as E.
  destruct f; cbn [bin_label in_period]; rewrite ?andb_true_iff, ?Z.eqb_eq, ?Z.leb_le.
  - congruence.
  - intros [[W L] U]. unfold weekday in *. Z.div_mod_to_equations. lia.
  - intros [[Y M] D]. now rewrite <- Y, <- M, <- D.
  - intros [[[Y Q] M] D].
    rewrite <- (quarter_last_month_unique (month d) (month e) Q M), <- Y, <- D. exact E.
  - intros [[Y M] D]. now rewrite <- Y, <- M, <- D.
Qed.

End CalendarFacts.

(** ** The trend table *)

Lemma bin_label_same_offset (f : Freq) (k : Z) :
  0 <= k -> forall d, d + k <= bin_label f d -> bin_label f (d + k) = bin_label f d.
Proof.
  intros N. pattern k. apply natlike_ind; [| |exact N].
  - intros d _. now rewrite Z.add_0_r.
  - intros n Hn IH d H.
    destruct (CalendarFacts.bin_label_step f d) as [E|E]; [lia|].
    rewrite <- E. replace (d + Z.succ n) with (d + 1 + n) by lia.
    apply IH. rewrite E. lia.
Qed.

Lemma bin_label_same (f : Freq) (d d' : Z) :
  d <= d' <= bin_label f d -> bin_label f d' = bin_label f d.
Proof.
  intros H. replace d' with (d + (d' - d)) by ring.
  apply bin_label_same_offset; lia.
Qed.

Lemma bin_label_mono (f : Freq) (d d' : Z) : d <= d' -> bin_label f d <= bin_label f d'.
Proof.
  intros H. destruct (Z_le_gt_dec d' (bin_label f d)) as [L|L].
  - rewrite (bin_label_same f d d'); lia.
  - pose proof (CalendarFacts.bin_label_ge f d'). lia.
Qed.

Lemma bin_label_idem (f : Freq) (d : Z) : bin_label f (bin_label f d) = bin_label f d.
Proof.
  apply bin_label_same. pose proof (CalendarFacts.bin_label_ge f d). lia.
Qed.

Lemma bin_label_is_period (f : Freq) (d e : Z) : (bin_label f d =? e) = in_period f d e.
Proof.
  destruct (Z.eqb_spec (bin_label f d) e) as [<-|N].
  - symmetry. apply CalendarFacts.bin_label_in_period.
  - destruct (in_period f d e) eqn:P; [|reflexivity].
    apply CalendarFacts.in_period_label in P. contradiction.
Qed.

Lemma bins_from_lower (f : Freq) (fuel : nat) (e last x : Z) :
  In x (bins_from f fuel e last) -> e <= x.
Proof.
  revert e. induction fuel as [|fuel IH]; intros e; cbn [bins_from].
  - intros [<-|[]]. lia.
  - intros [<-|H]; [lia|]. destruct (e <? last); [|destruct H].
    apply IH in H. pose proof (CalendarFacts.bin_label_ge f (e + 1)). lia.
Qed.

Lemma bins_from_sorted (f : Freq) (fuel : nat) (e last : Z) :
  StronglySorted Z.lt (bins_from f fuel e last).
Proof.
  revert e. induction fuel as [|fuel IH]; intros e; cbn [bins_from].
  - repeat constructor.
  - destruct (e <? last); [|repeat constructor].
    constructor; [apply IH|]. apply Forall_forall. intros x H.
    apply bins_from_lower in H. pose proof (CalendarFacts.bin_label_ge f (e + 1)). lia.
Qed.

(** With enough fuel no label up to the last one is left out. *)
Lemma bins_from_complete (f : Freq) (fuel : nat) (e last x : Z) :
  last - e <= Z.of_nat fuel -> bin_label f x = x -> e <= x <= last ->
  In x (bins_from f fuel e last).
Proof.
  revert e. induction fuel as [|fuel IH]; intros e F L B; cbn [bins_from].
  - left. lia.
  - destruct (Z.eq_dec e x) as [E|E]; [now left | right].
    destruct (Z.ltb_spec e last); [|lia].
    pose proof (CalendarFacts.bin_label_ge f (e + 1)).
    apply IH; [lia | exact L |].
    split; [|lia]. rewrite <- L. apply bin_label_mono. lia.
Qed.

Lemma bin_labels_complete (f : Freq) (first last d : Z) :
  first <= d <= last -> In (bin_label f d) (bin_labels f first last).
Proof.
  intros H. unfold bin_labels.
  pose proof (bin_label_mono f first d). pose proof (bin_label_mono f d last).
  apply bins_from_complete; [lia | apply bin_label_idem | lia].
Qed.

Lemma StronglySorted_map_lt (g : Z -> Z) (l : list Z) :
  (forall a b, a < b -> g a < g b) -> StronglySorted Z.lt l -> StronglySorted Z.lt (map g l).
Proof.
  intros Hg. induction 1 as [|x l Hl IH Hx]; cbn [map]; constructor; [exact IH|].
  rewrite Forall_forall in *. intros y Hy. apply in_map_iff in Hy.
  destruct Hy as [z [<- Hz]]. apply Hg. now apply Hx.
Qed.

Lemma StronglySorted_lt_NoDup (l : list Z) : StronglySorted Z.lt l -> NoDup l.
Proof.
  induction 1 as [|x l Hl IH Hx]; constructor; [|exact IH].
  intros H. rewrite Forall_forall in Hx. specialize (Hx x H). lia.
Qed.

Lemma resample_agg_keys (f : Freq) (v : DataFrame) :
  StronglySorted Z.lt (map t_Fecha (resample_agg f v)).
Proof.
  unfold resample_agg. destruct (min_date v) as [first|]; [|constructor].
  destruct (max_date v) as [last|]; [|constructor].
  rewrite map_map. cbn [agg_bin t_Fecha].
  apply StronglySorted_map_lt; [unfold NS_PER_DAY; lia | apply bins_from_sorted].
Qed.

Lemma resample_agg_bin (f : Freq) (v : DataFrame) (r : Row) :
  In r v -> In (agg_bin f v (bin_label f (fecha_date r))) (resample_agg f v).
Proof.
  intros H. unfold resample_agg.
  destruct (min_date v) as [first|] eqn:Hmin; [|destruct v; [destruct H | discriminate]].
  destruct (max_date v) as [last|] eqn:Hmax; [|destruct v; [destruct H | discriminate]].
  apply in_map, bin_labels_complete. split.
  - now apply (min_date_le v).
  - now apply (max_date_ge v).
Qed.

Lemma bin_rows_period (f : Freq) (v : DataFrame) (e : Z) :
  bin_rows f v e = filter (fun r => in_period f (fecha_date r) e) v.
Proof. unfold bin_rows. apply filter_ext. intros r. apply bin_label_is_period. Qed.

(** C9 as claimed fails for the weekly selector: Monday 2024-01-01 and
    Tuesday 2024-01-02 lie in one week starting on Monday, yet "W-MON"
    puts them in two bins, the Tuesday in the bin labelled Monday
    2024-01-08. *)
Lemma weekly_bins_end_on_monday :
  week_starting_monday 19723 = 19723 /\
  week_starting_monday 19724 = 19723 /\
  map (fun t => (t_Fecha t, t_Ventas t, t_Unidades t)) (df_trend Semanal monday_tuesday_df)
  = [(19723 * NS_PER_DAY, 100%Q, 10); (19730 * NS_PER_DAY, 200%Q, 20)].
Proof. repeat split. Qed.

(** C9, as the code has it.  For each of the five selectors the trend
    table has a bucket for the period every row lies in: the day, the
    week that runs from Tuesday to the Monday that labels it, the month,
    the quarter or the year; each bucket holds the sum of the sales, the
    mean of the inventory and the sum of the units of the rows of its
    period; and the buckets come in ascending order of date, no date
    twice. *)
Theorem df_trend_buckets (periodo : Periodo) (view : DataFrame) :
  let f := period_code periodo in
  let trend := df_trend periodo view in
  (forall r, In r view ->
     exists e t, In t trend /\ t_Fecha t = e * NS_PER_DAY /\
                 in_period f (fecha_date r) e = true) /\
  (forall t, In t trend ->
     exists e, t_Fecha t = e * NS_PER_DAY /\
       let rows := filter (fun r => in_period f (fecha_date r) e) view in
       t_Ventas t = sumQ (map Ventas rows) /\
       t_Inventario t = meanQ (map Inventario rows) /\
       t_Unidades t = sumZ (map Unidades rows)) /\
  StronglySorted Z.lt (map t_Fecha trend) /\
  NoDup (map t_Fecha trend).
Proof.
  cbn zeta. unfold df_trend. set (f := period_code periodo).
  split; [|split; [|split]].
  - intros r Hr. exists (bin_label f (fecha_date r)), (agg_bin f view (bin_label f (fecha_date r))).
    split; [now apply resample_agg_bin|].
    split; [reflexivity | apply CalendarFacts.bin_label_in_period].
  - intros t Ht. unfold resample_agg in Ht.
    destruct (min_date view); [|destruct Ht]. destruct (max_date view); [|destruct Ht].
    apply in_map_iff in Ht. destruct Ht as [e [<- _]]. exists e.
    unfold agg_bin. cbn [t_Fecha t_Ventas t_Inventario t_Unidades].
    rewrite bin_rows_period. auto.
  - apply resample_agg_keys.
  - apply StronglySorted_lt_NoDup, resample_agg_keys.
Qed.

Lemma df_trend_buckets_witness :
  exists e t, In t (df_trend Semanal monday_tuesday_df) /\ t_Fecha t = e * NS_PER_DAY /\
              in_period FreqW_MON 19724 e = true.
Proof.
  apply (proj1 (df_trend_buckets Semanal monday_tuesday_df)
           (mkRow (19724 * NS_PER_DAY) "Lima" "Aspirina" "Farmacia" "Analgesico" "LabA" "Ana"
                  200%Q 20 70%Q)).
  right. left. reflexivity.
Defined.

(** C10. Gaps are filled: for every selector the trend table has a
    bucket for every period from the one of the earliest date to the one
    of the latest date of the view, and a bucket whose period holds no
    row has sales 0, units 0 and no inventory mean. *)
Theorem df_trend_fills_gaps (periodo : Periodo) (view : DataFrame) (first last d : Z) :
  min_date view = Some first -> max_date view = Some last ->
  first <= d <= last ->
  let f := period_code periodo in
  exists t, In t (df_trend periodo view) /\
            t_Fecha t = bin_label f d * NS_PER_DAY /\
            in_period f d (bin_label f d) = true /\
            ((forall r, In r view -> in_period f (fecha_date r) (bin_label f d) = false) ->
             t_Ventas t = 0%Q /\ t_Unidades t = 0 /\ t_Inventario t = None).
Proof.
  intros Hmin Hmax Hd f.
  exists (agg_bin f view (bin_label f d)). split; [|split; [|split]].
  - unfold df_trend, resample_agg. fold f. rewrite Hmin, Hmax.
    now apply in_map, bin_labels_complete.
  - reflexivity.
  - apply CalendarFacts.bin_label_in_period.
  - intros Hnone. unfold agg_bin. cbn [t_Ventas t_Inventario t_Unidades].
    assert (E : bin_rows f view (bin_label f d) = []).
    { rewrite bin_rows_period. now apply filter_none. }
    rewrite E. auto.
Qed.

Lemma df_trend_fills_gaps_witness :
  exists t, In t (df_trend Diario gap_df) /\
            t_Fecha t = 19724 * NS_PER_DAY /\
            t_Ventas t = 0%Q /\ t_Unidades t = 0 /\ t_Inventario t = None.
Proof.
  destruct (df_trend_fills_gaps Diario gap_df 19723 19726 19724) as [t [H1 [H2 [_ H3]]]];
    [reflexivity | reflexivity | lia |].
  exists t. split; [exact H1|]. split; [exact H2|].
  apply H3. intros r [<-|[<-|[]]]; reflexivity.
Defined.

(** * More properties of the script *)

(** ** The filter engine, further *)

Lemma forallb_perm {A : Type} (p : A -> bool) (l l' : list A) :
  Permutation l l' -> forallb p l = forallb p l'.
Proof.
  induction 1 as [|x l l' _ IH|x y l|l l' l'' _ IH1 _ IH2]; cbn [forallb].
  - reflexivity.
  - now rewrite IH.
  - destruct (p x), (p y); reflexivity.
  - now rewrite IH1.
Qed.

(** X1. The six filters of the loop of lines 112-114 are applied one
    after the other, but the order does not matter: the selections taken
    in any other order give the same view. *)
Theorem apply_selected_any_order (selected selected' : list (Column * list string))
    (df_filtered : DataFrame) :
  Permutation selected selected' ->
  apply_selected selected df_filtered = apply_selected selected' df_filtered.
Proof.
  intros H. rewrite !apply_selected_filter. apply filter_ext. intros r.
  now apply forallb_perm.
Qed.

Lemma apply_selected_any_order_witness :
  apply_selected [(ColRegion, ["Lima"]); (ColProducto, ["Aspirina"])] scenario_df
  = apply_selected [(ColProducto, ["Aspirina"]); (ColRegion, ["Lima"])] scenario_df.
Proof.
  apply (apply_selected_any_order [(ColRegion, ["Lima"]); (ColProducto, ["Aspirina"])]
           [(ColProducto, ["Aspirina"]); (ColRegion, ["Lima"])] scenario_df).
  apply perm_swap.
Defined.

Lemma filter_idem {A : Type} (p : A -> bool) (l : list A) : filter p (filter p l) = filter p l.
Proof. apply filter_all. intros x H. apply filter_In in H. tauto. Qed.

(** X2. Filtering is idempotent: a view filtered once more by the same
    date range and the same selected values is unchanged, and the same
    messages are shown. *)
Theorem filter_engine_idempotent (df : DataFrame) (date_range : list Z)
    (sets : Column -> list string) :
  filter_engine (snd (filter_engine df date_range (fixed_select sets))) date_range
                (fixed_select sets)
  = filter_engine df date_range (fixed_select sets).
Proof.
  unfold filter_engine.
  set (sel := selected_filters (fixed_select sets) df).
  assert (I : forall d, apply_selected sel (apply_selected sel d) = apply_selected sel d).
  { intros d. rewrite !apply_selected_filter. apply filter_idem. }
  destruct date_range as [|a [|b [|c l]]]; cbn [date_filter snd];
    try (change (selected_filters (fixed_select sets) (apply_selected sel df)) with sel;
         now rewrite I).
  set (dated := filter (fun r => (a <=? fecha_date r) && (fecha_date r <=? b)) df).
  change (selected_filters (fixed_select sets) dated) with sel.
  assert (E : filter (fun r => (a <=? fecha_date r) && (fecha_date r <=? b))
                     (apply_selected sel dated) = apply_selected sel dated).
  { apply filter_all. intros r Hr. rewrite apply_selected_filter in Hr.
    apply filter_In in Hr. destruct Hr as [Hr _]. apply filter_In in Hr. tauto. }
  rewrite E. change (selected_filters (fixed_select sets) (apply_selected sel dated)) with sel.
  now rewrite I.
Qed.

(** X3. Whatever the date range, the multiselects left at their default
    drop no row: the view is the frame the date filter left, with the
    messages of the date filter. *)
Theorem default_selection_is_date_filter (df : DataFrame) (date_range : list Z) :
  filter_engine df date_range (multiselect default_user) = date_filter df date_range.
Proof.
  unfold filter_engine. destruct (date_filter df date_range) as [shown dated].
  cbn [default_user multiselect]. now rewrite default_selection_keeps_all.
Qed.

Lemma fold_min_In (l : list Z) (a : Z) : In (fold_left Z.min l a) (a :: l).
Proof.
  revert a. induction l as [|y l IH]; intros a; cbn [fold_left]; [now left|].
  destruct (IH (Z.min a y)) as [E|H]; [|right; now right].
  rewrite <- E. destruct (Z.min_spec a y) as [[_ ->]|[_ ->]]; [now left | right; now left].
Qed.

Lemma fold_max_In (l : list Z) (a : Z) : In (fold_left Z.max l a) (a :: l).
Proof.
  revert a. induction l as [|y l IH]; intros a; cbn [fold_left]; [now left|].
  destruct (IH (Z.max a y)) as [E|H]; [|right; now right].
  rewrite <- E. destruct (Z.max_spec a y) as [[_ ->]|[_ ->]]; [right; now left | now left].
Qed.

(** X4. The range offered to the date widget (line 74) is the span of
    the data: both of its dates are dates of rows of the frame, every
    row lies between them, and the first is not after the second. *)
Theorem date_span (df : DataFrame) (lo hi : Z) :
  min_date df = Some lo -> max_date df = Some hi ->
  (exists r, In r df /\ fecha_date r = lo) /\
  (exists r, In r df /\ fecha_date r = hi) /\
  (forall r, In r df -> lo <= fecha_date r <= hi) /\
  lo <= hi.
Proof.
  intros Hlo Hhi.
  assert (B : forall r, In r df -> lo <= fecha_date r <= hi).
  { intros r Hr. split; [now apply (min_date_le df) | now apply (max_date_ge df)]. }
  assert (A : exists r, In r df /\ fecha_date r = lo).
  { unfold min_date, series_min in Hlo. destruct df as [|r0 df]; [discriminate|].
    cbn [map option_map] in Hlo. injection Hlo as <-.
    pose proof (fold_min_In (map Fecha df) (Fecha r0)) as H.
    change (In (fold_left Z.min (map Fecha df) (Fecha r0)) (map Fecha (r0 :: df))) in H.
    apply in_map_iff in H. destruct H as [r [E Hr]]. exists r. split; [exact Hr|].
    unfold fecha_date. now rewrite E. }
  split; [exact A|]. split.
  - unfold max_date, series_max in Hhi. destruct df as [|r0 df]; [discriminate|].
    cbn [map option_map] in Hhi. injection Hhi as <-.
    pose proof (fold_max_In (map Fecha df) (Fecha r0)) as H.
    change (In (fold_left Z.max (map Fecha df) (Fecha r0)) (map Fecha (r0 :: df))) in H.
    apply in_map_iff in H. destruct H as [r [E Hr]]. exists r. split; [exact Hr|].
    unfold fecha_date. now rewrite E.
  - split; [exact B|]. destruct A as [r [Hr <-]]. apply (B r Hr).
Qed.

Lemma date_span_witness :
  (exists r, In r scenario_df /\ fecha_date r = 19723) /\
  (exists r, In r scenario_df /\ fecha_date r = 19725) /\
  (forall r, In r scenario_df -> 19723 <= fecha_date r <= 19725) /\
  19723 <= 19725.
Proof. apply (date_span scenario_df 19723 19725); reflexivity. Defined.

(** X5. On a frame that [load_data] gave, the sidebar stops the script
    exactly when no row passes the filters, and then the last message
    shown is the no-data warning; otherwise it hands on the view, which
    has a row, with the messages of the filter engine alone. *)
Theorem sidebar_stops_on_empty_view (csv : ReadCsv) (shown0 : list Msg) (df : DataFrame) (u : User) :
  startup csv = Loaded shown0 df ->
  exists lo hi,
    min_date df = Some lo /\ max_date df = Some hi /\
    let engine := filter_engine df (date_input u (lo, hi)) (multiselect u) in
    (snd engine = [] -> sidebar df u = (fst engine ++ [StWarning MSG_NO_DATA], None)) /\
    (snd engine <> [] -> sidebar df u = (fst engine, Some (snd engine))).
Proof.
  intros H.
  assert (Hne : df <> []).
  { unfold startup in H. destruct csv as [|e|[|r raw]]; cbn in H; try discriminate.
    injection H as _ <-. discriminate. }
  destruct (dates_of_nonempty df Hne) as [lo [hi [Hlo Hhi]]].
  exists lo, hi. split; [exact Hlo|]. split; [exact Hhi|]. cbn zeta.
  unfold sidebar. rewrite Hlo, Hhi.
  destruct (filter_engine df (date_input u (lo, hi)) (multiselect u)) as [shown view].
  cbn [fst snd]. split; intros E.
  - now rewrite E.
  - destruct view; [congruence | reflexivity].
Qed.

Lemma sidebar_stops_on_empty_view_witness :
  exists lo hi,
    min_date scenario_df = Some lo /\ max_date scenario_df = Some hi /\
    let engine := filter_engine scenario_df (date_input default_user (lo, hi))
                                (multiselect default_user) in
    (snd engine = [] ->
     sidebar scenario_df default_user = (fst engine ++ [StWarning MSG_NO_DATA], None)) /\
    (snd engine <> [] -> sidebar scenario_df default_user = (fst engine, Some (snd engine))).
Proof.
  apply (sidebar_stops_on_empty_view (Returns scenario_csv) [] scenario_df default_user).
  reflexivity.
Defined.

(** ** Grouping *)

(** Rows grouped by a key: when every row has its key among the distinct
    [keys], the groups taken one after the other hold every row once. *)
Section Groups.

Context {R K : Type}.
Variable key_of : R -> K.
Variable eqb : K -> K -> bool.
Hypothesis eqb_true : forall a b, eqb a b = true <-> a = b.

Lemma group_gains_row (r : R) (v : list R) (keys : list K) :
  NoDup keys -> In (key_of r) keys ->
  Permutation (flat_map (fun k => filter (fun r' => eqb (key_of r') k) (r :: v)) keys)
              (r :: flat_map (fun k => filter (fun r' => eqb (key_of r') k) v) keys).
Proof.
  induction 1 as [|k keys Hk Hnd IH]; intros Hin; [destruct Hin|].
  cbn [flat_map filter]. destruct (eqb (key_of r) k) eqn:E.
  - apply eqb_true in E. subst k. cbn [app]. apply perm_skip, Permutation_app_head.
    rewrite !flat_map_concat_map. apply Permutation_refl'. f_equal.
    apply map_ext_in. intros k' Hk'. destruct (eqb (key_of r) k') eqn:E'; [|reflexivity].
    apply eqb_true in E'. now subst k'.
  - destruct Hin as [->|Hin]; [rewrite (proj2 (eqb_true _ _) eq_refl) in E; discriminate|].
    rewrite (IH Hin). symmetry. apply Permutation_middle.
Qed.

Lemma groups_partition (keys : list K) (v : list R) :
  NoDup keys -> (forall r, In r v -> In (key_of r) keys) ->
  Permutation (flat_map (fun k => filter (fun r => eqb (key_of r) k) v) keys) v.
Proof.
  intros Hnd. induction v as [|r v IH]; intros Hin.
  - cbn [filter]. clear. induction keys as [|k keys IHk]; [constructor | exact IHk].
  - rewrite group_gains_row; [|exact Hnd | apply Hin; now left].
    apply perm_skip, IH. intros r' Hr'. apply Hin. now right.
Qed.

End Groups.

Lemma groupby_sum_fst (key : Row -> string) (v : DataFrame) :
  map fst (groupby_sum key v) = sorted (unique (map key v)).
Proof. unfold groupby_sum. rewrite map_map. cbn [fst]. apply map_id. Qed.

Lemma groupby_keys_cover (key : Row -> string) (v : DataFrame) (r : Row) :
  In r v -> In (key r) (sorted (unique (map key v))).
Proof. intros H. rewrite sorted_In, unique_In. now apply in_map. Qed.

Lemma grouped_rows_partition (key : Row -> string) (v : DataFrame) :
  Permutation (grouped_rows key v) v.
Proof.
  unfold grouped_rows. rewrite groupby_sum_fst.
  apply (groups_partition key String.eqb String.eqb_eq).
  - apply sorted_NoDup, unique_NoDup.
  - apply groupby_keys_cover.
Qed.

(** X6. The grouped sums of sales (by product, category, channel or
    salesperson, lines 151, 167, 241 and 260) count no row twice and
    leave none out: the groups of the keys of the result, taken one
    after the other, hold exactly the rows of the view, each as often as
    the view has it, and every entry carries the sum of the sales of the
    rows of its key. *)
Theorem groupby_sum_partition (key : Row -> string) (v : DataFrame) :
  Permutation (grouped_rows key v) v /\
  (forall x, In x (groupby_sum key v) ->
             snd x = sumQ (map Ventas (filter (fun r => String.eqb (key r) (fst x)) v))) /\
  Permutation
    (flat_map (fun k => filter (fun r => String.eqb (Categoria r) k) v) (map fst (ventas_cat v)))
    v /\
  Permutation
    (flat_map (fun k => filter (fun r => String.eqb (Canal r) k) v) (map fst (df_canal v)))
    v.
Proof.
  split; [apply grouped_rows_partition|]. split.
  - unfold groupby_sum. intros x H. apply in_map_iff in H. now destruct H as [k [<- _]].
  - split; [apply (grouped_rows_partition Categoria) | apply (grouped_rows_partition Canal)].
Qed.

Lemma groupby_sum_partition_witness :
  snd ("Ana", 400%Q)
  = sumQ (map Ventas (filter (fun r => String.eqb (Vendedor r) (fst ("Ana", 400%Q)))
                             scenario_df)).
Proof.
  apply (proj1 (proj2 (groupby_sum_partition Vendedor scenario_df))).
  left. reflexivity.
Defined.

(** X7. The mean sales per salesperson (line 130) is the mean of the
    sums of the salespersons, not of the rows: on a view with rows it is
    the sum of the grouped sums divided by the number of distinct
    salespersons; on an empty view it is NaN. *)
Theorem ventas_prom_vendedor_value (v : DataFrame) :
  (v = [] -> ventas_prom_vendedor v = None) /\
  (v <> [] ->
   ventas_prom_vendedor v
   = Some (sumQ (map snd (groupby_sum Vendedor v))
           / inject_Z (Z.of_nat (List.length (unique (map Vendedor v)))))%Q).
Proof.
  split.
  - intros ->. reflexivity.
  - intros Hne. unfold ventas_prom_vendedor, meanQ.
    destruct (map snd (groupby_sum Vendedor v)) as [|x l] eqn:E.
    + apply (f_equal (@List.length Q)) in E.
      rewrite length_map, groupby_sum_length in E.
      destruct v as [|r v]; [congruence | discriminate E].
    + rewrite <- E. now rewrite length_map, groupby_sum_length.
Qed.

Lemma ventas_prom_vendedor_value_witness :
  ventas_prom_vendedor [] = None /\
  ventas_prom_vendedor scenario_df
  = Some (sumQ (map snd (groupby_sum Vendedor scenario_df))
          / inject_Z (Z.of_nat (List.length (unique (map Vendedor scenario_df)))))%Q.
Proof.
  split.
  - apply (proj1 (ventas_prom_vendedor_value [])). reflexivity.
  - apply (proj2 (ventas_prom_vendedor_value scenario_df)). discriminate.
Defined.

(** ** Ranking, further *)

(** X8. The top [n] leaves out nothing larger: the entries [nlargest]
    does not return all have a value at most that of every entry it
    returns. *)
Theorem nlargest_leaves_no_larger (tie_rank : string * Q -> nat) (g : list (string * Q))
    (n : nat) :
  exists rest,
    Permutation (nlargest tie_rank n g ++ rest) g /\
    forall x y, In x (nlargest tie_rank n g) -> In y rest -> (snd y <= snd x)%Q.
Proof.
  destruct (nlargest_head tie_rank n g) as [s [E [P S]]].
  exists (skipn n s). rewrite E, firstn_skipn. split; [exact P|].
  apply (StronglySorted_app_order (fun x y => (snd y <= snd x)%Q)).
  now rewrite firstn_skipn.
Qed.

Lemma nlargest_leaves_no_larger_witness :
  exists rest,
    Permutation (nlargest last_first 1 [("a", 1%Q); ("b", 3%Q); ("c", 2%Q)] ++ rest)
                [("a", 1%Q); ("b", 3%Q); ("c", 2%Q)] /\
    forall y, In y rest -> (snd y <= 3)%Q.
Proof.
  destruct (nlargest_leaves_no_larger last_first [("a", 1%Q); ("b", 3%Q); ("c", 2%Q)] 1)
    as [rest [P H]].
  exists rest. split; [exact P|].
  intros y Hy. apply (H ("b", 3%Q) y); [left; reflexivity | exact Hy].
Defined.

Lemma NoDup_firstn {A : Type} (n : nat) (l : list A) : NoDup l -> NoDup (firstn n l).
Proof.
  intros H. rewrite <- (firstn_skipn n l) in H. now apply NoDup_app_remove_r in H.
Qed.

Lemma nlargest_In (tie_rank : string * Q -> nat) (n : nat) (g : list (string * Q))
    (x : string * Q) :
  In x (nlargest tie_rank n g) -> In x g.
Proof.
  destruct (nlargest_head tie_rank n g) as [s [-> [P _]]]. intros H.
  apply (Permutation_in _ P). rewrite <- (firstn_skipn n s). apply in_or_app. now left.
Qed.

Lemma nlargest_keys (tie_rank : string * Q -> nat) (n : nat) (g : list (string * Q)) :
  NoDup (map fst g) -> NoDup (map fst (nlargest tie_rank n g)).
Proof.
  intros H. destruct (nlargest_head tie_rank n g) as [s [-> [P _]]].
  rewrite <- firstn_map. apply NoDup_firstn.
  apply (Permutation_NoDup (l := map fst g)); [|exact H].
  apply Permutation_map. now symmetry.
Qed.

Lemma groupby_sum_In (key : Row -> string) (v : DataFrame) (x : string * Q) :
  In x (groupby_sum key v) ->
  (exists r, In r v /\ key r = fst x) /\
  snd x = sumQ (map Ventas (filter (fun r => String.eqb (key r) (fst x)) v)).
Proof.
  unfold groupby_sum. intros H. apply in_map_iff in H. destruct H as [k [<- Hk]].
  cbn [fst snd]. split; [|reflexivity].
  rewrite sorted_In, unique_In in Hk. apply in_map_iff in Hk.
  destruct Hk as [r [E Hr]]. now exists r.
Qed.

(** X9. The bars of the two top tens (lines 151 and 260) are real: each
    one names a product, or a salesperson, of some row of the view and
    carries the sum of the sales of the rows with that name, and no name
    comes twice. *)
Theorem top_ten_entries (tie_rank : string * Q -> nat) (v : DataFrame) :
  (forall x, In x (top_productos tie_rank v) ->
             (exists r, In r v /\ Producto r = fst x) /\
             snd x = sumQ (map Ventas (filter (fun r => String.eqb (Producto r) (fst x)) v))) /\
  (forall x, In x (top_vendedores tie_rank v) ->
             (exists r, In r v /\ Vendedor r = fst x) /\
             snd x = sumQ (map Ventas (filter (fun r => String.eqb (Vendedor r) (fst x)) v))) /\
  NoDup (map fst (top_productos tie_rank v)) /\
  NoDup (map fst (top_vendedores tie_rank v)).
Proof.
  unfold top_productos, top_vendedores. repeat split.
  - apply nlargest_In in H. now apply (groupby_sum_In Producto v x).
  - apply nlargest_In in H. now apply (groupby_sum_In Producto v x).
  - apply nlargest_In in H. now apply (groupby_sum_In Vendedor v x).
  - apply nlargest_In in H. now apply (groupby_sum_In Vendedor v x).
  - apply nlargest_keys, groupby_sum_keys.
  - apply nlargest_keys, groupby_sum_keys.
Qed.

Lemma top_ten_entries_witness :
  (exists r, In r scenario_df /\ Producto r = "Aspirina") /\
  400%Q = sumQ (map Ventas (filter (fun r => String.eqb (Producto r) "Aspirina") scenario_df)).
Proof.
  apply (proj1 (top_ten_entries last_first scenario_df) ("Aspirina", 400%Q)).
  left. reflexivity.
Defined.

(** ** The filter options *)

Lemma string_leb_trans (a b c : string) :
  String.leb a b = true -> String.leb b c = true -> String.leb a c = true.
Proof.
  unfold String.leb. revert b c.
  induction a as [|x a IH]; intros [|y b] [|z c]; cbn [String.compare];
    try discriminate; try reflexivity.
  unfold Ascii.compare.
  destruct (N.compare_spec (N_of_ascii x) (N_of_ascii y)) as [E1|L1|G1];
    destruct (N.compare_spec (N_of_ascii y) (N_of_ascii z)) as [E2|L2|G2];
    destruct (N.compare_spec (N_of_ascii x) (N_of_ascii z)) as [E3|L3|G3];
    try discriminate; try reflexivity; try lia; try apply IH.
Qed.

Lemma string_leb_total (a b : string) : String.leb a b = false -> String.leb b a = true.
Proof. intros H. destruct (String.leb_total a b) as [E|E]; congruence. Qed.

(** X10. The options of each sidebar filter (lines 91-98) are exactly
    the values the column takes in the frame the date filter left, each
    one once, in ascending order. *)
Theorem filters_options (d : DataFrame) (k : Column) :
  (forall x, In x (filters d k) <-> exists r, In r d /\ col k r = x) /\
  NoDup (filters d k) /\
  StronglySorted (fun a b => String.leb a b = true) (filters d k).
Proof.
  unfold filters. split; [|split].
  - intros x. rewrite sorted_In, unique_In, in_map_iff. split; intros [r [A B]]; eauto.
  - apply sorted_NoDup, unique_NoDup.
  - apply stable_sort_StronglySorted.
    + apply string_leb_total.
    + apply string_leb_trans.
Qed.

(** ** Sales by city *)

Lemma unique_incl_length (l l' : list string) :
  incl l l' -> (List.length (unique l) <= List.length (unique l'))%nat.
Proof.
  intros H. apply NoDup_incl_length; [apply unique_NoDup|].
  intros x Hx. rewrite unique_In in *. now apply H.
Qed.

(** X11. The table of sales by city (lines 279-283) has one row per
    region of the view, which carries the sums of the sales and of the
    units of the rows of the region; the rows of its regions, taken one
    after the other, are exactly the rows of the view; and the number of
    different products of a city is at least 1 and at most the number
    of different products of the view. *)
Theorem ventas_ciudad_agg_rows (v : DataFrame) :
  NoDup (map c_Region (ventas_ciudad_agg v)) /\
  (forall k, In k (map c_Region (ventas_ciudad_agg v)) <-> exists r, In r v /\ Region r = k) /\
  Permutation (flat_map (region_rows v) (map c_Region (ventas_ciudad_agg v))) v /\
  (forall c, In c (ventas_ciudad_agg v) ->
             c_Ventas c = sumQ (map Ventas (region_rows v (c_Region c))) /\
             c_Unidades c = sumZ (map Unidades (region_rows v (c_Region c))) /\
             (1 <= c_Productos_Diferentes c <= List.length (unique (map Producto v)))%nat).
Proof.
  assert (K : map c_Region (ventas_ciudad_agg v) = sorted (unique (map Region v))).
  { unfold ventas_ciudad_agg. rewrite map_map. cbn [c_Region]. apply map_id. }
  split; [|split; [|split]].
  - rewrite K. apply sorted_NoDup, unique_NoDup.
  - intros k. rewrite K, sorted_In, unique_In, in_map_iff.
    split; intros [r [A B]]; eauto.
  - rewrite K. unfold region_rows.
    apply (groups_partition Region String.eqb String.eqb_eq).
    + apply sorted_NoDup, unique_NoDup.
    + apply groupby_keys_cover.
  - intros c Hc. unfold ventas_ciudad_agg in Hc. apply in_map_iff in Hc.
    destruct Hc as [k [<- Hk]].
    cbn [c_Region c_Ventas c_Unidades c_Productos_Diferentes].
    split; [reflexivity|]. split; [reflexivity|]. split.
    + rewrite sorted_In, unique_In in Hk. apply in_map_iff in Hk.
      destruct Hk as [r [E Hr]].
      assert (I : In (Producto r) (unique (map Producto (region_rows v k)))).
      { rewrite unique_In. apply in_map. unfold region_rows. apply filter_In.
        split; [exact Hr | now apply String.eqb_eq]. }
      destruct (unique (map Producto (region_rows v k))); [destruct I | cbn; lia].
    + apply unique_incl_length. intros x Hx. apply in_map_iff in Hx.
      destruct Hx as [r [<- Hr]]. apply in_map. unfold region_rows in Hr.
      apply filter_In in Hr. tauto.
Qed.

Lemma ventas_ciudad_agg_rows_witness :
  c_Ventas (mkCityRow "Lima" 600%Q 30 2)
  = sumQ (map Ventas (region_rows scenario_df "Lima")) /\
  c_Unidades (mkCityRow "Lima" 600%Q 30 2)
  = sumZ (map Unidades (region_rows scenario_df "Lima")) /\
  (1 <= c_Productos_Diferentes (mkCityRow "Lima" 600%Q 30 2)
   <= List.length (unique (map Producto scenario_df)))%nat.
Proof.
  apply (proj2 (proj2 (proj2 (ventas_ciudad_agg_rows scenario_df)))).
  left. reflexivity.
Defined.

(** ** The trend table, further *)

Lemma bin_labels_NoDup (f : Freq) (first last : Z) : NoDup (bin_labels f first last).
Proof. apply StronglySorted_lt_NoDup, bins_from_sorted. Qed.

Lemma Zeqb_true (a b : Z) : (a =? b) = true <-> a = b.
Proof. apply Z.eqb_eq. Qed.

Lemma date_of_label (e : Z) : date_of (e * NS_PER_DAY) = e.
Proof. unfold date_of. apply Z.div_mul. discriminate. Qed.

(** X12. The trend table loses nothing: whatever the period, the rows
    of the view that lie in the periods of its buckets, taken bucket
    after bucket, are exactly the rows of the view, each as often as the
    view has it. *)
Theorem df_trend_partition (periodo : Periodo) (view : DataFrame) :
  Permutation
    (flat_map (fun t => filter (fun r => in_period (period_code periodo) (fecha_date r)
                                                   (date_of (t_Fecha t))) view)
              (df_trend periodo view))
    view.
Proof.
  unfold df_trend, resample_agg. set (f := period_code periodo).
  destruct (min_date view) as [first|] eqn:Hmin;
    [|destruct view; [constructor | discriminate]].
  destruct (max_date view) as [last|] eqn:Hmax;
    [|destruct view; [constructor | discriminate]].
  assert (C : forall r, In r view -> In (bin_label f (fecha_date r)) (bin_labels f first last)).
  { intros r Hr. apply bin_labels_complete. split.
    - now apply (min_date_le view).
    - now apply (max_date_ge view). }
  rewrite flat_map_concat_map, map_map, <- flat_map_concat_map.
  erewrite flat_map_ext.
  - apply (groups_partition (fun r => bin_label f (fecha_date r)) Z.eqb Zeqb_true);
      [apply bin_labels_NoDup | exact C].
  - intros e. cbn [agg_bin t_Fecha]. rewrite date_of_label.
    symmetry. apply bin_rows_period.
Qed.

(** X13. The inventory line breaks exactly at the empty periods: the
    mean inventory of a bucket of the trend table is NaN if and only if
    no row of the view lies in the period of the bucket. *)
Theorem df_trend_nan_inventory (periodo : Periodo) (view : DataFrame) (t : TrendRow) :
  In t (df_trend periodo view) ->
  (t_Inventario t = None <->
   forall r, In r view ->
             in_period (period_code periodo) (fecha_date r) (date_of (t_Fecha t)) = false).
Proof.
  unfold df_trend, resample_agg. set (f := period_code periodo).
  destruct (min_date view); [|intros []]. destruct (max_date view); [|intros []].
  intros H. apply in_map_iff in H. destruct H as [e [<- _]].
  unfold agg_bin. cbn [t_Inventario t_Fecha]. rewrite date_of_label, bin_rows_period.
  split.
  - intros N r Hr. destruct (in_period f (fecha_date r) e) eqn:P; [|reflexivity].
    assert (I : In r (filter (fun r => in_period f (fecha_date r) e) view))
      by (apply filter_In; auto).
    destruct (filter _ view); [destruct I | discriminate N].
  - intros N. now rewrite (filter_none _ view N).
Qed.

Lemma df_trend_nan_inventory_witness :
  t_Inventario (mkTrendRow (19724 * NS_PER_DAY) 0 None 0) = None <->
  forall r, In r gap_df -> in_period FreqD (fecha_date r) (date_of (19724 * NS_PER_DAY)) = false.
Proof.
  apply (df_trend_nan_inventory Diario gap_df (mkTrendRow (19724 * NS_PER_DAY) 0 None 0)).
  right. left. reflexivity.
Defined.

Lemma bins_from_daily_length (fuel : nat) (e last : Z) :
  last - e = Z.of_nat fuel -> List.length (bins_from FreqD fuel e last) = S fuel.
Proof.
  revert e. induction fuel as [|fuel IH]; intros e H; cbn [bins_from List.length].
  - reflexivity.
  - destruct (Z.ltb_spec e last); [|lia]. cbn [bin_label]. rewrite IH; [reflexivity | lia].
Qed.

(** X14. With the daily period the trend table has one row for each
    day from the earliest to the latest date of the view, both
    included. *)
Theorem df_trend_daily_length (view : DataFrame) (first last : Z) :
  min_date view = Some first -> max_date view = Some last ->
  Z.of_nat (List.length (df_trend Diario view)) = last - first + 1.
Proof.
  intros Hmin Hmax. unfold df_trend, resample_agg. cbn [period_code].
  rewrite Hmin, Hmax, length_map. unfold bin_labels. cbn [bin_label].
  assert (L : first <= last).
  { destruct view as [|r view]; [discriminate|].
    pose proof (min_date_le (r :: view) first r Hmin (or_introl eq_refl)).
    pose proof (max_date_ge (r :: view) last r Hmax (or_introl eq_refl)). lia. }
  rewrite bins_from_daily_length; lia.
Qed.

Lemma df_trend_daily_length_witness :
  Z.of_nat (List.length (df_trend Diario gap_df)) = 19726 - 19723 + 1.
Proof. apply (df_trend_daily_length gap_df 19723 19726); reflexivity. Defined.

(** ** Loading, further *)

Lemma set_Region_same (r : Row) : set_Region (Region r) r = r.
Proof. now destruct r. Qed.

(** X15. Loading is idempotent on text of simple characters: a frame
    that [load_data] gave of such a dataset, read again, comes back as
    it is, with as many rows as were read and no message. *)
Theorem load_data_idempotent (raw df : DataFrame) :
  snd (load_data (Returns raw)) = Some df ->
  (forall r, In r raw -> simple_string (Region r) = true) ->
  load_data (Returns df) = ([], Some df) /\ List.length df = List.length raw.
Proof.
  intros H Hsimple.
  assert (F : forall r, In r df -> set_Region (normalize_region (Region r)) r = r).
  { intros r Hr. destruct (loaded_regions raw df r H Hr) as [r0 [H0 E]].
    rewrite E, normalize_region_idem, <- E by now apply Hsimple. apply set_Region_same. }
  pose proof (loaded_frame raw df H) as E.
  destruct raw as [|r0 raw]; [discriminate|]. split.
  - destruct df as [|r df]; [discriminate E|]. cbn [load_data].
    rewrite (map_ext_in _ (fun r => r)) by exact F. now rewrite map_id.
  - rewrite E. apply length_map.
Qed.

Lemma load_data_idempotent_witness :
  load_data (Returns scenario_df) = ([], Some scenario_df) /\
  List.length scenario_df = List.length scenario_csv.
Proof.
  apply (load_data_idempotent scenario_csv scenario_df); [reflexivity|].
  intros r [<-|[<-|[<-|[]]]]; reflexivity.
Defined.

(** X16. On text of simple characters the normalization of line 36
    touches nothing but case and surrounding whitespace: the region it
    gives differs from the region read at most in these, and taking the
    title case first and stripping after, as the script does, gives what
    stripping first would. *)
Theorem normalize_region_keeps_text (s : string) :
  simple_string s = true ->
  same_modulo_case_ws (normalize_region s) s /\
  normalize_region s = Utf8.encode (Text.title (Text.strip (Utf8.decode s))).
Proof.
  intros H. split; [now apply normalize_region_keeps|].
  destruct (simple_string_parts s H) as [S _].
  unfold normalize_region, Text.title_strip. now rewrite (TextFacts.strip_title _ S).
Qed.

Lemma normalize_region_keeps_text_witness :
  same_modulo_case_ws (normalize_region " BogotÁ ") " BogotÁ " /\
  normalize_region " BogotÁ "
  = Utf8.encode (Text.title (Text.strip (Utf8.decode " BogotÁ "))).
Proof. apply (normalize_region_keeps_text " BogotÁ "). vm_compute. reflexivity. Defined.

(** ** KPIs, further *)

(** X17. The unit price never raises: it is a number on every view, and
    it is 0 whenever the units add up to 0 or less (returns may outweigh
    sales). *)
Theorem precio_unitario_never_raises (v : DataFrame) :
  exists q, precio_unitario v = Ok q /\ (unidades_totales v <= 0 -> q = 0%Q).
Proof.
  unfold precio_unitario, truediv.
  destruct (Z.gtb_spec (unidades_totales v) 0) as [G|G].
  - destruct (Z.eqb_spec (unidades_totales v) 0); [lia|].
    eexists. split; [reflexivity | lia].
  - exists 0%Q. split; [reflexivity | auto].
Qed.

Lemma precio_unitario_never_raises_witness :
  exists q,
    precio_unitario
      [mkRow 0 "Lima" "Aspirina" "Farmacia" "Analgesico" "LabA" "Ana" 100%Q (-5) 50%Q] = Ok q /\
    q = 0%Q.
Proof.
  destruct (precio_unitario_never_raises
              [mkRow 0 "Lima" "Aspirina" "Farmacia" "Analgesico" "LabA" "Ana" 100%Q (-5) 50%Q])
    as [q [E H]].
  exists q. split; [exact E|]. apply H. vm_compute. discriminate.
Defined.

Lemma filter_engine_is_filter (df : DataFrame) (date_range : list Z)
    (select : Column -> list string -> list string) :
  exists p, snd (filter_engine df date_range select) = filter p df.
Proof.
  unfold filter_engine.
  destruct date_range as [|a [|b [|c l]]]; cbn [date_filter snd];
    rewrite apply_selected_filter; try (eexists; reflexivity).
  rewrite filter_twice. eexists. reflexivity.
Qed.

Lemma filter_length_le {A : Type} (p : A -> bool) (l : list A) :
  (List.length (filter p l) <= List.length l)%nat.
Proof. induction l as [|x l IH]; cbn; [|destruct (p x); cbn]; lia. Qed.

(** X18. The filter engine only ever drops rows: whatever the widgets
    return, the view is the dataset filtered by one test on rows, so it
    keeps the order of the rows, repeats none that was not repeated, and
    has at most as many rows as the dataset. *)
Theorem filter_engine_only_drops (df : DataFrame) (date_range : list Z)
    (select : Column -> list string -> list string) :
  (exists p, snd (filter_engine df date_range select) = filter p df) /\
  (List.length (snd (filter_engine df date_range select)) <= List.length df)%nat /\
  (NoDup df -> NoDup (snd (filter_engine df date_range select))).
Proof.
  destruct (filter_engine_is_filter df date_range select) as [p E].
  split; [now exists p|]. rewrite E. split.
  - apply filter_length_le.
  - apply NoDup_filter.
Qed.

Lemma filter_engine_only_drops_witness :
  NoDup (snd (filter_engine scenario_df [19723; 19724] only_lima)).
Proof.
  apply (proj2 (proj2 (filter_engine_only_drops scenario_df [19723; 19724] only_lima))).
  repeat constructor; cbn; intuition discriminate.
Defined.

(** X19. Every KPI of lines 126-130 is defined on a view the sidebar
    lets through: the view has a row, so the mean inventory and the mean
    sales per salesperson are numbers and not NaN, and the unit price is
    a number. *)
Theorem kpis_defined (df : DataFrame) (u : User) (shown : list Msg) (view : DataFrame) :
  sidebar df u = (shown, Some view) ->
  view <> [] /\
  (exists q, inventario_prom view = Some q) /\
  (exists q, ventas_prom_vendedor view = Some q) /\
  (exists q, precio_unitario view = Ok q).
Proof.
  intros H.
  assert (Hne : view <> []).
  { unfold sidebar in H. destruct (min_date df); [|discriminate].
    destruct (max_date df); [|discriminate].
    destruct (filter_engine df (date_input u (z, z0)) (multiselect u)) as [s w].
    destruct w; [discriminate|]. injection H as _ <-. discriminate. }
  split; [exact Hne|]. split; [|split].
  - unfold inventario_prom, meanQ. destruct view; [congruence|]. cbn [map]. eauto.
  - unfold ventas_prom_vendedor, meanQ.
    destruct (map snd (groupby_sum Vendedor view)) as [|x l] eqn:E; [|eauto].
    apply (f_equal (@List.length Q)) in E. rewrite length_map, groupby_sum_length in E.
    destruct view; [congruence | discriminate E].
  - unfold precio_unitario, truediv.
    destruct (Z.gtb_spec (unidades_totales view) 0); [|eauto].
    destruct (Z.eqb_spec (unidades_totales view) 0); [lia | eauto].
Qed.

Lemma kpis_defined_witness :
  scenario_df <> [] /\
  (exists q, inventario_prom scenario_df = Some q) /\
  (exists q, ventas_prom_vendedor scenario_df = Some q) /\
  (exists q, precio_unitario scenario_df = Ok q).
Proof. apply (kpis_defined scenario_df default_user [] scenario_df). reflexivity. Defined.

Lemma bins_from_labels (f : Freq) (fuel : nat) (e last x : Z) :
  bin_label f e = e -> In x (bins_from f fuel e last) -> bin_label f x = x.
Proof.
  revert e. induction fuel as [|fuel IH]; intros e L; cbn [bins_from].
  - intros [<-|[]]. exact L.
  - intros [<-|H]; [exact L|]. destruct (e <? last); [|destruct H].
    apply (IH (bin_label f (e + 1))); [apply bin_label_idem | exact H].
Qed.

Lemma bins_from_upper (f : Freq) (fuel : nat) (e last x : Z) :
  bin_label f last = last -> e <= last -> In x (bins_from f fuel e last) -> x <= last.
Proof.
  intros L. revert e. induction fuel as [|fuel IH]; intros e B; cbn [bins_from].
  - intros [<-|[]]. exact B.
  - intros [<-|H]; [exact B|]. destruct (Z.ltb_spec e last); [|destruct H].
    apply (IH (bin_label f (e + 1))); [|exact H].
    rewrite <- L. apply bin_label_mono. lia.
Qed.

(** X20. The trend table has no bucket outside the data: every bucket
    is dated on the last day of its period (the day itself for the daily
    period), not before the period of the earliest row and not after the
    period of the latest row. *)
Theorem df_trend_span (periodo : Periodo) (view : DataFrame) (first last : Z) (t : TrendRow) :
  min_date view = Some first -> max_date view = Some last ->
  In t (df_trend periodo view) ->
  let f := period_code periodo in
  let e := date_of (t_Fecha t) in
  t_Fecha t = e * NS_PER_DAY /\
  bin_label f e = e /\
  bin_label f first <= e <= bin_label f last.
Proof.
  intros Hmin Hmax H. cbn zeta. unfold df_trend, resample_agg in H. rewrite Hmin, Hmax in H.
  set (f := period_code periodo) in *.
  apply in_map_iff in H. destruct H as [e [<- He]].
  cbn [agg_bin t_Fecha]. rewrite date_of_label. split; [reflexivity|].
  unfold bin_labels in He.
  assert (L : first <= last).
  { destruct view as [|r view]; [discriminate|].
    pose proof (min_date_le (r :: view) first r Hmin (or_introl eq_refl)).
    pose proof (max_date_ge (r :: view) last r Hmax (or_introl eq_refl)). lia. }
  split; [|split].
  - eapply bins_from_labels; [apply bin_label_idem | exact He].
  - eapply bins_from_lower. exact He.
  - eapply bins_from_upper; [apply bin_label_idem | | exact He].
    now apply bin_label_mono.
Qed.

Lemma df_trend_span_witness :
  let t := mkTrendRow (19730 * NS_PER_DAY) 200%Q (Some (70 / 1)%Q) 20 in
  t_Fecha t = date_of (t_Fecha t) * NS_PER_DAY /\
  bin_label FreqW_MON (date_of (t_Fecha t)) = date_of (t_Fecha t) /\
  bin_label FreqW_MON 19723 <= date_of (t_Fecha t) <= bin_label FreqW_MON 19724.
Proof.
  apply (df_trend_span Semanal monday_tuesday_df 19723 19724); [reflexivity | reflexivity |].
  right. left. vm_compute. reflexivity.
Defined.
